(** * hw_6/terminal_ui.py: the validated-input prompt, the validators, the
    menu engine and the file actions, as a shallow embedding.

    Python values are modelled as follows.
    - [str] is [string]; the character [ascii_of_nat n] is the code point
      [n], so the strings covered are those over code points 0..255.
      Message literals are kept as the source writes them.
    - An exception is a value of [exn]; a call that may raise returns an
      [outcome].
    - Console, keyboard, working directory and closure cells form a
      [world] that the effectful functions thread explicitly.
    - [main_menu], the top-level loop, and the imaging library are
      parameters of the menus that call them. *)

From Stdlib Require Import String Ascii List Bool Arith ZArith Lia DecimalString.
Import ListNotations.
Open Scope string_scope.

(** ** Exceptions and outcomes *)

Inductive exn : Type :=
| ValidationError (msg : string)   (* class ValidationError(Exception) *)
| ValueError (msg : string)
| EOFError (msg : string)
| IndexError (msg : string)
| FileNotFoundError (msg : string)
| IsADirectoryError (msg : string)
| NameError (msg : string).

(** [str(e)] *)
Definition str_exn (e : exn) : string :=
  match e with
  | ValidationError m | ValueError m | EOFError m
  | IndexError m | FileNotFoundError m | IsADirectoryError m
  | NameError m => m
  end.

Inductive outcome (A : Type) : Type :=
| Ret (a : A)
| Raise (e : exn).
Arguments Ret {A} a.
Arguments Raise {A} e.

Definition obind {A B} (o : outcome A) (k : A -> outcome B) : outcome B :=
  match o with
  | Ret a => k a
  | Raise e => Raise e
  end.

Declare Scope outcome_scope.
Delimit Scope outcome_scope with outcome.
Notation "'let?' x := c 'in' k" := (obind c (fun x => k))
  (at level 10, x name, c at level 100, k at level 200) : outcome_scope.

(** ** The built-ins of [str] and [list] the program calls *)

Module Py.

Definition code (c : ascii) : nat := nat_of_ascii c.

Definition nl : string := String (ascii_of_nat 10) "".

Definition is_digit (c : ascii) : bool :=
  ((48 <=? code c) && (code c <=? 57))%nat.

(** Whitespace in the sense of [str.isspace], on code points below 256:
    TAB..CR, FS..US, SPACE, NEL and NBSP. *)
Definition is_space (c : ascii) : bool :=
  let n := code c in
  (((9 <=? n) && (n <=? 13)) || ((28 <=? n) && (n <=? 32))
   || (n =? 133) || (n =? 160))%nat.

Fixpoint all_chars (p : ascii -> bool) (s : string) : bool :=
  match s with
  | EmptyString => true
  | String c r => p c && all_chars p r
  end.

(** [s.isspace()]: every character is whitespace and there is one. *)
Definition isspace (s : string) : bool :=
  match s with
  | EmptyString => false
  | String _ _ => all_chars is_space s
  end.

(** [s.startswith(p)] *)
Definition startswith (s p : string) : bool := String.prefix p s.

(** [s.endswith(suf)] *)
Fixpoint endswith (s suf : string) : bool :=
  (s =? suf) ||
  match s with
  | EmptyString => false
  | String _ r => endswith r suf
  end.

(** [sub in s] *)
Fixpoint contains (sub s : string) : bool :=
  String.prefix sub s ||
  match s with
  | EmptyString => false
  | String _ r => contains sub r
  end.

(** The scan of [s.split(sep)] for a non-empty [sep]: [skip] counts the
    characters of a separator occurrence still to pass over, [cur] is the
    token read so far. *)
Fixpoint split_from (sep : string) (skip : nat) (cur s : string)
  : list string :=
  match s with
  | EmptyString => [cur]
  | String c r =>
      match skip with
      | S k => split_from sep k cur r
      | O =>
          if String.prefix sep s
          then cur :: split_from sep (String.length sep - 1) "" r
          else split_from sep 0 (cur ++ String c "") r
      end
  end.

(** [s.split(sep)] with an explicit separator. *)
Definition split (s sep : string) : outcome (list string) :=
  if (String.length sep =? 0)%nat then Raise (ValueError "empty separator")
  else Ret (split_from sep 0 "" s).

(** The scan of [s.replace(old, new)] for a non-empty [old]. *)
Fixpoint replace_from (old new : string) (skip : nat) (s : string) : string :=
  match s with
  | EmptyString => ""
  | String c r =>
      match skip with
      | S k => replace_from old new k r
      | O =>
          if String.prefix old s
          then new ++ replace_from old new (String.length old - 1) r
          else String c (replace_from old new 0 r)
      end
  end.

(** [s.replace(old, new)], for the non-empty [old] the program passes. *)
Definition replace (s old new : string) : string :=
  replace_from old new 0 s.

(** [sep.join(xs)] *)
Definition join (sep : string) (xs : list string) : string :=
  String.concat sep xs.

(** [str(n)] for [len(...)] and an index, and for an [int]. *)
Definition str_nat (n : nat) : string :=
  NilZero.string_of_uint (Nat.to_uint n).
Definition str_int (z : Z) : string :=
  NilZero.string_of_int (Z.to_int z).

(** [repr(s)], exact for text without quotes, backslashes and control
    characters; it only occurs in messages of built-in exceptions. *)
Definition repr (s : string) : string := "'" ++ s ++ "'".

(** [xs.index(x)]: position of the first element equal to [x]. *)
Fixpoint index (xs : list string) (x : string) : outcome nat :=
  match xs with
  | [] => Raise (ValueError (repr x ++ " is not in list"))
  | y :: ys =>
      if (y =? x) then Ret 0
      else match index ys x with
           | Ret i => Ret (S i)
           | Raise e => Raise e
           end
  end.

(** *** [float(s)]: which strings convert.

    Only whether the conversion succeeds is modelled, not the number it
    yields.  The steps are those of CPython: non-ASCII whitespace becomes a
    space and any other non-ASCII character stops the text with a [?];
    underscores are accepted between two digits and dropped; ASCII
    whitespace is stripped at both ends; what remains must be, to its end,
    an optional sign followed by a decimal number with an optional exponent
    or by [inf], [infinity] or [nan] in any letter case. *)

Definition is_ascii_char (c : ascii) : bool := (code c <? 128)%nat.

Definition is_c_space (c : ascii) : bool :=
  let n := code c in (((9 <=? n) && (n <=? 13)) || (n =? 32))%nat.

Fixpoint to_ascii_text (s : string) : string :=
  match s with
  | EmptyString => ""
  | String c r =>
      if (code c <? 127)%nat then String c (to_ascii_text r)
      else if is_space c then String " " (to_ascii_text r)
      else "?"
  end.

Fixpoint drop_underscores (prev : ascii) (s : string) : option string :=
  match s with
  | EmptyString => if (prev =? "_")%char then None else Some ""
  | String c r =>
      if (c =? "_")%char then
        if is_digit prev then drop_underscores c r else None
      else if (prev =? "_")%char && negb (is_digit c) then None
      else option_map (String c) (drop_underscores c r)
  end.

Fixpoint lstrip (s : string) : string :=
  match s with
  | EmptyString => ""
  | String c r => if is_c_space c then lstrip r else s
  end.

Fixpoint rstrip (s : string) : string :=
  match s with
  | EmptyString => ""
  | String c r =>
      match rstrip r with
      | EmptyString => if is_c_space c then "" else String c ""
      | r' => String c r'
      end
  end.

Definition skip_sign (s : string) : string :=
  match s with
  | String c r => if (c =? "+")%char || (c =? "-")%char then r else s
  | EmptyString => s
  end.

(** Reads a run of digits: whether there was one, and the rest. *)
Fixpoint span_digits (s : string) : bool * string :=
  match s with
  | String c r => if is_digit c then (true, snd (span_digits r)) else (false, s)
  | EmptyString => (false, s)
  end.

(** The longest decimal number at the head of [s]: the text after it, or
    [None] when no digit was read. *)
Definition strtod (s : string) : option string :=
  let s1 := skip_sign s in
  let '(d1, s2) := span_digits s1 in
  let '(d2, s3) :=
    match s2 with
    | String c r => if (c =? ".")%char then span_digits r else (false, s2)
    | EmptyString => (false, s2)
    end in
  if d1 || d2 then
    Some match s3 with
         | String c r =>
             if (c =? "e")%char || (c =? "E")%char then
               let '(d3, s4) := span_digits (skip_sign r) in
               if d3 then s4 else s3
             else s3
         | EmptyString => s3
         end
  else None.

Definition lower (c : ascii) : ascii :=
  if ((65 <=? code c) && (code c <=? 90))%nat
  then ascii_of_nat (code c + 32) else c.

(** Reads the lower-case word [w] at the head of [s], any letter case. *)
Fixpoint match_word (w s : string) : option string :=
  match w with
  | EmptyString => Some s
  | String a w' =>
      match s with
      | String c r => if (lower c =? a)%char then match_word w' r else None
      | EmptyString => None
      end
  end.

Definition parse_inf_or_nan (s : string) : option string :=
  let s1 := skip_sign s in
  match match_word "inf" s1 with
  | Some r =>
      match match_word "inity" r with
      | Some r' => Some r'
      | None => Some r
      end
  | None => match_word "nan" s1
  end.

Definition float (s : string) : outcome unit :=
  let failure :=
    Raise (ValueError ("could not convert string to float: " ++ repr s)) in
  let t := if all_chars is_ascii_char s then s else to_ascii_text s in
  match drop_underscores zero t with
  | None => failure
  | Some u =>
      let v := rstrip (lstrip u) in
      match match strtod v with
            | Some r => Some r
            | None => parse_inf_or_nan v
            end with
      | Some EmptyString => Ret tt
      | _ => failure
      end
  end.

(** *** [int(s)] in base ten

    The text is prepared as for [float]; ASCII whitespace is passed over,
    then an optional sign; what follows must be digits, with single
    underscores allowed between two of them, and at most whitespace after
    them.  A literal of more digits than the limit of
    [sys.get_int_max_str_digits()], 4300 unless changed, is refused. *)

Definition max_str_digits : nat := 4300.

Definition digit_value (c : ascii) : Z := Z.of_nat (code c - 48).

(** Reads digits and underscores: the value, the number of digits and the
    text left, or [None] at a doubled or closing underscore. *)
Fixpoint scan_int (prev : ascii) (acc : Z) (count : nat) (s : string)
  : option (Z * nat * string) :=
  match s with
  | String c r =>
      if is_digit c
      then scan_int c (acc * 10 + digit_value c)%Z (S count) r
      else if (c =? "_")%char
      then if (prev =? "_")%char then None else scan_int c acc count r
      else if (prev =? "_")%char then None else Some (acc, count, s)
  | EmptyString =>
      if (prev =? "_")%char then None else Some (acc, count, s)
  end.

Definition int (s : string) : outcome Z :=
  let failure :=
    Raise (ValueError ("invalid literal for int() with base 10: " ++ repr s))
  in
  let t := if all_chars is_ascii_char s then s else to_ascii_text s in
  let u := lstrip t in
  let negative :=
    match u with
    | String c _ => (c =? "-")%char
    | EmptyString => false
    end in
  match skip_sign u with
  | EmptyString => failure
  | String c _ as v =>
      if (c =? "_")%char then failure
      else
        match scan_int zero 0 0 v with
        | None => failure
        | Some (n, count, rest) =>
            if (count =? 0)%nat then failure
            else if (max_str_digits <? count)%nat then
              Raise (ValueError
                       "Exceeds the limit (4300 digits) for integer string conversion")
            else
              match lstrip rest with
              | EmptyString => Ret (if negative then - n else n)%Z
              | String _ _ => failure
              end
        end
  end.

End Py.

(** ** Validators *)

(** A validator takes the candidate string and returns or raises. *)
Definition validator : Type := string -> outcome unit.

Definition not_empty : validator := fun value =>
  if (String.length value =? 0)%nat || Py.isspace value
  then Raise (ValidationError "Значение не должно быть пустым.")
  else Ret tt.

Definition list_len_message (length : Z) (actual : nat) : string :=
  "Количество элементов должно равняться " ++ Py.str_int length
  ++ ". Сейчас " ++ Py.str_nat actual ++ ".".

Definition list_len_validator (length : Z) (sep : string) : validator :=
  fun value =>
  (let? tokens := Py.split value sep in
   if negb (Z.of_nat (List.length tokens) =? length)%Z then
     let? again := Py.split value sep in
     Raise (ValidationError (list_len_message length (List.length again)))
   else Ret tt)%outcome.

Definition elem_error_message (elem : string) (i : nat) (reason : string)
  : string :=
  "Ошибка для элемента '" ++ elem ++ "' под номером " ++ Py.str_nat i
  ++ ": " ++ reason.

(** The inner loop of [list_elems_validator]: every element validator is
    tried on [elem]; [except Exception] turns each raise into a line. *)
Fixpoint elem_errors (elem_validators : list validator) (i : nat)
  (elem : string) (errors : list string) : list string :=
  match elem_validators with
  | [] => errors
  | validator :: rest =>
      match validator elem with
      | Ret _ => elem_errors rest i elem errors
      | Raise e =>
          elem_errors rest i elem
            (errors ++ [elem_error_message elem i (str_exn e)])
      end
  end.

(** The outer loop, over [enumerate(value.split(sep))] from index [i]. *)
Fixpoint tokens_errors (elem_validators : list validator) (i : nat)
  (tokens : list string) (errors : list string) : list string :=
  match tokens with
  | [] => errors
  | elem :: rest =>
      tokens_errors elem_validators (S i) rest
        (elem_errors elem_validators i elem errors)
  end.

Definition list_elems_validator (sep : string)
  (elem_validators : list validator) : validator := fun value =>
  (let? tokens := Py.split value sep in
   let errors := tokens_errors elem_validators 0 tokens [] in
   if (0 <? List.length errors)%nat
   then Raise (ValidationError (Py.join Py.nl errors))
   else Ret tt)%outcome.

Definition not_a_number_message (value : string) : string :=
  "Значение '" ++ value ++ "' не является числом.".

Definition only_digit_validator : validator := fun value =>
  (let? is_num :=
     match Py.float value with
     | Ret _ => Ret true
     | Raise (ValueError _) => Ret false
     | Raise e => Raise e
     end in
   if negb is_num then Raise (ValidationError (not_a_number_message value))
   else Ret tt)%outcome.

(** ** The world the program runs in *)

Inductive kind : Type := RegularFile | Directory.

(** What the program has shown or asked an external library to do. *)
Inductive event : Type :=
| Prompted (text : string)                       (* the prompt of input() *)
| Printed (line : string)                        (* print(line) *)
| Cleared                                        (* os.system clearing *)
| Menu (names : list string) (fixed : list nat)  (* cutie.select on screen *)
| PdfToDocx (src dst : string)                   (* ToDocxConverter *)
| DocxToPdf (src dst : string).                  (* docx2pdf.convert *)

Record world : Type := World {
  stdin : list string;                 (* the lines the user will type *)
  choices : list nat;                  (* the entries the user will pick *)
  cwd : list (string * kind);          (* the working directory *)
  cells : list (option string);        (* variables captured by closures *)
  console : list event
}.

Definition M (A : Type) : Type := world -> outcome A * world.

Definition ret {A} (a : A) : M A := fun w => (Ret a, w).

Definition raise {A} (e : exn) : M A := fun w => (Raise e, w).

Definition bind {A B} (m : M A) (k : A -> M B) : M B := fun w =>
  match m w with
  | (Ret a, w') => k a w'
  | (Raise e, w') => (Raise e, w')
  end.

Definition lift {A} (o : outcome A) : M A := fun w => (o, w).

Declare Scope io_scope.
Delimit Scope io_scope with io.
Notation "x <- c ;; k" := (bind c (fun x => k))
  (at level 61, c at next level, right associativity) : io_scope.
Notation "c ;; k" := (bind c (fun _ => k))
  (at level 61, right associativity) : io_scope.

Definition emit (e : event) : M unit := fun w =>
  (Ret tt,
   World (stdin w) (choices w) (cwd w) (cells w) (console w ++ [e])%list).

Definition print (line : string) : M unit := emit (Printed line).

Definition os_system_clear : M unit := emit Cleared.

(** [for x in xs: body(x)] *)
Fixpoint for_each {A} (xs : list A) (body : A -> M unit) : M unit :=
  match xs with
  | [] => ret tt
  | x :: rest => (body x ;; for_each rest body)%io
  end.

(** [cutie.select(names, fixed)]: shows the menu and returns the entry the
    user confirms.  The widget is an external library; the entry is taken
    from the scripted [choices]. *)
Definition cutie_select (names : list string) (fixed : list nat) : M nat :=
  fun w =>
  let shown := (console w ++ [Menu names fixed])%list in
  match choices w with
  | [] => (Raise (EOFError "no selection"),
           World (stdin w) [] (cwd w) (cells w) shown)
  | k :: rest => (Ret k, World (stdin w) rest (cwd w) (cells w) shown)
  end.

(** *** The working directory *)

Fixpoint lookup (name : string) (dir : list (string * kind)) : option kind :=
  match dir with
  | [] => None
  | (n, k) :: rest => if (n =? name) then Some k else lookup name rest
  end.

Fixpoint unlink (name : string) (dir : list (string * kind))
  : list (string * kind) :=
  match dir with
  | [] => []
  | (n, k) :: rest =>
      if (n =? name) then rest else (n, k) :: unlink name rest
  end.

(** [os.listdir(os.getcwd())] *)
Definition os_listdir (w : world) : list string := map fst (cwd w).

(** [os.path.isfile(f)] *)
Definition os_path_isfile (w : world) (f : string) : bool :=
  match lookup f (cwd w) with
  | Some RegularFile => true
  | _ => false
  end.

(** [os.remove(f)] *)
Definition os_remove (f : string) : M unit := fun w =>
  match lookup f (cwd w) with
  | Some RegularFile =>
      (Ret tt,
       World (stdin w) (choices w) (unlink f (cwd w)) (cells w) (console w))
  | Some Directory => (Raise (IsADirectoryError f), w)
  | None => (Raise (FileNotFoundError f), w)
  end.

(** ** Components *)

Record Button : Type := MkButton {
  get_name : string;
  action : M unit
}.

Definition press (b : Button) : M unit := action b.

(** The [for validator in validators] loop of [validated_input]: only a
    [ValidationError] is caught and appended. *)
Fixpoint collect_errors (validators : list validator) (value : string)
  (errors : list string) : outcome (list string) :=
  match validators with
  | [] => Ret errors
  | validator :: rest =>
      match validator value with
      | Ret _ => collect_errors rest value errors
      | Raise (ValidationError m) =>
          collect_errors rest value (errors ++ [m])%list
      | Raise e => Raise e
      end
  end.

(** [while True] of [validated_input], by recursion on the lines still to
    be typed: each round reads one, and [input] raises [EOFError] when
    there is none. *)
Fixpoint validated_input_loop (input_name : string)
  (validators : list validator) (on_successful_confirm : M unit)
  (lines : list string) (w : world) : outcome string * world :=
  let asked := (console w ++ [Prompted (input_name ++ ": ")])%list in
  match lines with
  | [] =>
      (Raise (EOFError "EOF when reading a line"),
       World [] (choices w) (cwd w) (cells w) asked)
  | value :: rest =>
      let w1 := World rest (choices w) (cwd w) (cells w) asked in
      match collect_errors validators value [] with
      | Raise e => (Raise e, w1)
      | Ret errors =>
          if (0 <? List.length errors)%nat then
            match for_each errors print w1 with
            | (Ret _, w2) =>
                validated_input_loop input_name validators
                  on_successful_confirm rest w2
            | (Raise e, w2) => (Raise e, w2)
            end
          else
            match on_successful_confirm w1 with
            | (Ret _, w2) => (Ret value, w2)
            | (Raise e, w2) => (Raise e, w2)
            end
      end
  end.

Definition validated_input (input_name : string)
  (validators : list validator) (on_successful_confirm : M unit) : M string :=
  fun w =>
  validated_input_loop input_name validators on_successful_confirm (stdin w) w.

(** [[button_names.index(n) for n in non_selectable_button_names]] *)
Fixpoint button_indices (button_names names : list string)
  : outcome (list nat) :=
  match names with
  | [] => Ret []
  | n :: rest =>
      (let? i := Py.index button_names n in
       let? others := button_indices button_names rest in
       Ret (i :: others))%outcome
  end.

(** The end of [select]: the echo of the chosen name and the press. *)
Definition press_selected (buttons : list Button)
  (print_selected_option : bool) (pressed_button_index : nat) : M unit :=
  ((if print_selected_option then
      match nth_error (map get_name buttons) pressed_button_index with
      | Some name => print ("Ваш выбор:  " ++ name)
      | None => raise (IndexError "list index out of range")
      end
    else ret tt) ;;
   match nth_error buttons pressed_button_index with
   | Some button => press button
   | None => raise (IndexError "list index out of range")
   end)%io.

Definition select (buttons : list Button)
  (non_selectable_buttons : option (list Button)) (on_render : M unit)
  (print_selected_option : bool) : M unit :=
  (on_render ;;
   let button_names := map get_name buttons in
   pressed_button_index <-
     match non_selectable_buttons with
     | Some non_selectable =>
         let non_selectable_button_names := map get_name non_selectable in
         non_selectable_button_indices <-
           lift (button_indices button_names non_selectable_button_names) ;;
         cutie_select button_names non_selectable_button_indices
     | None => cutie_select button_names []
     end ;;
   press_selected buttons print_selected_option pressed_button_index)%io.

(** ** Actions *)

Definition dquote : string := String (ascii_of_nat 34) "".

Definition files_in_cwd_with_exts (exts : list string) : M (list string) :=
  fun w =>
  (Ret (flat_map
          (fun ext =>
             filter (fun f => os_path_isfile w f && Py.endswith f ("." ++ ext))
                    (os_listdir w))
          exts),
   w).

Definition file_list (exts : list string) : M (list string) :=
  match exts with
  | [] =>
      (print "Список файлов в данном каталоге" ;;
       print "" ;;
       fun w => (Ret (filter (os_path_isfile w) (os_listdir w)), w))%io
  | first :: _ =>
      (print ("Список файлов с расширением "
              ++ (if (1 <? List.length exts)%nat then Py.join "; " exts
                  else first)
              ++ " в данном каталоге") ;;
       print "" ;;
       files_in_cwd_with_exts exts)%io
  end.

(** [rm_files]: the list [removed] is created empty, nothing is appended to
    it in the loop, and it is returned. *)
Fixpoint rm_files_loop (files removed : list string) : M (list string) :=
  match files with
  | [] => ret removed
  | file :: rest => (os_remove file ;; rm_files_loop rest removed)%io
  end.

Definition rm_files (files : list string) : M (list string) :=
  rm_files_loop files [].

Definition successfully_removed_message_for_file (filename : string) : M unit :=
  print ("Файл: " ++ dquote ++ filename ++ dquote ++ " успешно удален!").

Definition rm_files_startswith (s : string) (files : list string) : M unit :=
  (removed <- rm_files (filter (fun f => Py.startswith f s) files) ;;
   for_each removed successfully_removed_message_for_file)%io.

Definition rm_files_endswith (s : string) (files : list string) : M unit :=
  (removed <- rm_files (filter (fun f => Py.endswith f s) files) ;;
   for_each removed successfully_removed_message_for_file)%io.

Definition rm_files_contains (s : string) (files : list string) : M unit :=
  (removed <- rm_files (filter (fun f => Py.contains s f) files) ;;
   for_each removed successfully_removed_message_for_file)%io.

Definition rm_files_by_extension (ext : string) : M unit :=
  (selected <- files_in_cwd_with_exts ["ext"] ;;
   removed <- rm_files selected ;;
   for_each removed successfully_removed_message_for_file)%io.

(** *** Closures over a comprehension variable

    A comprehension has one variable for all its rounds.  A [lambda] in its
    body that names the variable holds the variable, not the value it had
    when the [lambda] was made: the variable is a cell of the [world], and
    the [lambda] reads it when it is called. *)

Definition new_cell : M nat := fun w =>
  (Ret (List.length (cells w)),
   World (stdin w) (choices w) (cwd w) (cells w ++ [None])%list (console w)).

Fixpoint store (i : nat) (v : string) (cs : list (option string))
  : list (option string) :=
  match cs, i with
  | [], _ => []
  | _ :: rest, O => Some v :: rest
  | c :: rest, S j => c :: store j v rest
  end.

Definition set_cell (i : nat) (v : string) : M unit := fun w =>
  (Ret tt,
   World (stdin w) (choices w) (cwd w) (store i v (cells w)) (console w)).

Definition get_cell (i : nat) : M string := fun w =>
  match nth_error (cells w) i with
  | Some (Some v) => (Ret v, w)
  | _ => (Raise (NameError "free variable referenced before assignment"), w)
  end.

(** [[Button(file, lambda: body(file)) for file in files]]: the name is
    read from the variable when the button is made, the [lambda] gets the
    variable itself. *)
Fixpoint buttons_over_cell (file : nat) (body : string -> M unit)
  (files : list string) : M (list Button) :=
  match files with
  | [] => ret []
  | f :: rest =>
      (set_cell file f ;;
       name <- get_cell file ;;
       let button := MkButton name (now <- get_cell file ;; body now) in
       others <- buttons_over_cell file body rest ;;
       ret (button :: others))%io
  end.

Definition to_docx (file : string) : M unit :=
  emit (PdfToDocx file ("docx_" ++ Py.replace file ".pdf" ".docx")).

Definition to_pdf (file : string) : M unit :=
  emit (DocxToPdf file ("pdf_" ++ Py.replace file ".docx" ".pdf")).

Section Menus.

(** [main_menu] is the top-level loop; the menus below only hand it to
    their last button. *)
Variable main_menu : M unit.

Definition pdf_to_docx : M unit :=
  (os_system_clear ;;
   files <- file_list ["pdf"] ;;
   file <- new_cell ;;
   file_buttons <- buttons_over_cell file to_docx files ;;
   select (file_buttons ++ [MkButton "Выход" main_menu])%list None
          (ret tt) false)%io.

Definition docx_to_pdf : M unit :=
  (os_system_clear ;;
   files <- file_list ["docx"] ;;
   file <- new_cell ;;
   file_buttons <- buttons_over_cell file to_pdf files ;;
   select (file_buttons ++ [MkButton "Выход" main_menu])%list None
          (ret tt) false)%io.

Definition substr_input_title : string := "Введите подстроку".

Definition rm_files_group : M unit :=
  (files <- file_list [] ;;
   let substr_input_validators := [not_empty] in
   select
     [ MkButton "Удалить все файлы начинающиеся на определенную подстроку"
         (s <- validated_input substr_input_title substr_input_validators
                 (ret tt) ;;
          rm_files_startswith s files);
       MkButton "Удалить все файлы заканчивающиеся на определенную подстроку"
         (s <- validated_input substr_input_title substr_input_validators
                 (ret tt) ;;
          rm_files_endswith s files);
       MkButton "Удалить все файлы содержащие определенную подстроку"
         (s <- validated_input substr_input_title substr_input_validators
                 (ret tt) ;;
          rm_files_contains s files);
       MkButton "Удалить все файлы по расширению"
         (ext <- validated_input "Введите расширение"
                   substr_input_validators (ret tt) ;;
          rm_files_by_extension ext);
       MkButton "Выход" main_menu ]
     None os_system_clear false)%io.

End Menus.

Section Compression.

(** [main_menu] as above; [Image.open] and [Image.save] are those of the
    imaging library: an opened image, and the saving of it under a name with
    a quality, optimised. *)
Variable main_menu : M unit.
Variable image : Type.
Variable Image_open : string -> M image.
Variable Image_save : image -> string -> Z -> M unit.

Definition compression_input_name : string :=
  "Введите параметры сжатия (от 0 до 100%)".

Definition compression_input_validators : list validator :=
  [only_digit_validator; not_empty].

Definition get_compression_value_and_apply_to (files : list string) : M unit :=
  (compression_value <-
     validated_input compression_input_name compression_input_validators
       (ret tt) ;;
   for_each files
     (fun file =>
        opened <- Image_open file ;;
        quality <- lift (Py.int compression_value) ;;
        Image_save opened ("compressed_" ++ file) quality))%io.

(** The action of a file button of [compress_images]: [lambda f=file]
    takes the value the variable has when the button is made. *)
Definition compress_file (f : string) : M unit :=
  (opened <- Image_open f ;;
   value <- validated_input compression_input_name
              compression_input_validators (ret tt) ;;
   quality <- lift (Py.int value) ;;
   Image_save opened ("compressed_" ++ f) quality)%io.

Definition compress_images : M unit :=
  (os_system_clear ;;
   files <- file_list ["jpeg"; "jpg"; "png"; "gif"] ;;
   select
     (map (fun file => MkButton file (compress_file file)) files
      ++ [MkButton "Сжать все файлы в каталоге"
            (get_compression_value_and_apply_to files);
          MkButton "Выход" main_menu])%list
     None (ret tt) false)%io.

End Compression.

(** * Properties *)

(** ** Vocabulary of the properties

    What the specification requires of the validators, in its words, and
    the notions the statements below are written with. *)

(** A string that consists solely of whitespace. *)
Definition solely_whitespace (s : string) : Prop :=
  forall c, In c (list_ascii_of_string s) -> Py.is_space c = true.

(** [token_count(n, separator)]: the split gives tokens; the validator
    passes when there are [n] of them, and otherwise fails with the message
    that reports how many there are. *)
Definition token_count_spec (n : Z) (sep value : string) : Prop :=
  exists tokens,
    Py.split value sep = Ret tokens /\
    list_len_validator n sep value =
      if (Z.of_nat (List.length tokens) =? n)%Z then Ret tt
      else Raise (ValidationError (list_len_message n (List.length tokens))).

(** The lines one token earns: one per element validator that raises on
    it, tagged with the token and its index. *)
Definition token_failures (elem_validators : list validator) (i : nat)
  (elem : string) : list string :=
  flat_map
    (fun v => match v elem with
              | Ret _ => []
              | Raise e => [elem_error_message elem i (str_exn e)]
              end)
    elem_validators.

(** The lines of all tokens, numbered from [i]. *)
Definition all_failures (elem_validators : list validator) (i : nat)
  (tokens : list string) : list string :=
  flat_map (fun p => token_failures elem_validators (fst p) (snd p))
           (combine (seq i (List.length tokens)) tokens).

(** [each_token(separator, elem_validators)]: the split gives tokens; the
    validator passes when no application fails, and otherwise fails once,
    with all the lines joined. *)
Definition each_token_spec (sep : string) (elem_validators : list validator)
  (value : string) : Prop :=
  exists tokens,
    Py.split value sep = Ret tokens /\
    list_elems_validator sep elem_validators value =
      match all_failures elem_validators 0 tokens with
      | [] => Ret tt
      | failures => Raise (ValidationError (Py.join Py.nl failures))
      end.

(** The messages of all the validators that reject [value], in the order
    of the validators: no validator is left out because an earlier one
    failed. *)
Definition failure_messages (validators : list validator) (value : string)
  : list string :=
  flat_map
    (fun v => match v value with
              | Raise (ValidationError m) => [m]
              | _ => []
              end)
    validators.

(** A validator in the sense of the data model: on [value] it returns or
    signals a validation failure, nothing else. *)
Definition validates (value : string) (v : validator) : Prop :=
  v value = Ret tt \/ exists m, v value = Raise (ValidationError m).

(** What one rejected line puts on the console: the prompt, then every
    failure message. *)
Definition rejected_round (input_name : string) (validators : list validator)
  (value : string) : list event :=
  Prompted (input_name ++ ": ") :: map Printed (failure_messages validators value).

(** [i] is the position of the first entry of [names] equal to [name]. *)
Definition first_occurrence (names : list string) (name : string) (i : nat)
  : Prop :=
  nth_error names i = Some name /\
  forall j, j < i -> nth_error names j <> Some name.

(** The files [rm_files_by_extension] takes from the working directory. *)
Definition placeholder_selection (w : world) : list string :=
  filter (fun f => os_path_isfile w f && Py.endswith f ".ext") (os_listdir w).

(** The cells after the rounds of a comprehension over [files] whose
    variable is cell [c]. *)
Definition rounds (c : nat) (files : list string) (cs : list (option string))
  : list (option string) :=
  fold_left (fun cs f => store c f cs) files cs.

(** The button a round makes for [f]: its name is [f], its action reads
    cell [c] when pressed. *)
Definition round_button (c : nat) (body : string -> M unit) (f : string)
  : Button :=
  MkButton f (now <- get_cell c ;; body now)%io.

(** The files a conversion menu lists for an extension. *)
Definition listed (ext : string) (w : world) : list string :=
  filter (fun f => os_path_isfile w f && Py.endswith f ("." ++ ext))
         (os_listdir w).

(** The source of the conversion a run ended with. *)
Definition converted_source (w : world) : option string :=
  match last (console w) Cleared with
  | PdfToDocx src _ | DocxToPdf src _ => Some src
  | _ => None
  end.

(** The run of [menu] converts the last listed file, and that is not the
    file named on button [i]. *)
Definition converts_last_not_displayed (menu : M unit) (ext : string)
  (w : world) (i : nat) : Prop :=
  converted_source (snd (menu w)) = Some (last (listed ext w) "") /\
  last (listed ext w) "" <> nth i (listed ext w) "".

Definition two_pdfs (pick : nat) : world :=
  World [] [pick] [("a.pdf", RegularFile); ("b.pdf", RegularFile)] [] [].

(** ** Strings *)

Lemma all_chars_spec (p : ascii -> bool) (s : string) :
  Py.all_chars p s = true <->
  forall c, In c (list_ascii_of_string s) -> p c = true.
Proof.
  induction s as [|a s IH]; simpl.
  - split; [intros _ c [] | reflexivity].
  - rewrite andb_true_iff, IH. split.
    + intros [Ha Hs] c [<- | Hc]; auto.
    + intros H. split; [apply H; now left | intros c Hc; apply H; now right].
Qed.

Lemma length_zero_iff_empty (s : string) :
  (String.length s =? 0)%nat = true <-> s = "".
Proof.
  destruct s; simpl; split; congruence.
Qed.

Lemma isspace_spec (s : string) :
  Py.isspace s = true <-> s <> "" /\ solely_whitespace s.
Proof.
  unfold solely_whitespace. destruct s as [|a s].
  - simpl. split; [discriminate | intros [H _]; now contradiction H].
  - unfold Py.isspace. rewrite all_chars_spec. split.
    + intros H. split; [discriminate | exact H].
    + intros [_ H]. exact H.
Qed.

Lemma split_nonempty_sep (value sep : string) :
  sep <> "" -> Py.split value sep = Ret (Py.split_from sep 0 "" value).
Proof.
  intros Hsep. unfold Py.split.
  destruct (String.length sep =? 0)%nat eqn:E; [|reflexivity].
  apply length_zero_iff_empty in E. contradiction.
Qed.

Lemma split_empty_sep (value : string) :
  Py.split value "" = Raise (ValueError "empty separator").
Proof. reflexivity. Qed.

Lemma append_empty_r (s : string) : s ++ "" = s.
Proof. induction s as [|a s IH]; simpl; [reflexivity | now rewrite IH]. Qed.

Lemma append_assoc (a b c : string) : (a ++ b) ++ c = a ++ (b ++ c).
Proof. induction a as [|x a IH]; simpl; [reflexivity | now rewrite IH]. Qed.

Lemma append_length (a b : string) :
  String.length (a ++ b) = String.length a + String.length b.
Proof. induction a as [|x a IH]; simpl; [reflexivity | now rewrite IH]. Qed.

Lemma prefix_spec (p s : string) :
  String.prefix p s = true <-> exists r, s = p ++ r.
Proof.
  revert s. induction p as [|a p IH]; intros s; simpl.
  - split; [intros _; now exists s | intros _; now destruct s].
  - destruct s as [|b s]; simpl.
    + split; [discriminate | intros [r H]; discriminate].
    + destruct (ascii_dec a b) as [<- | Hab].
      * rewrite IH. split; intros [r H]; exists r; congruence.
      * split; [discriminate | intros [r H]; congruence].
Qed.

(** [s.startswith(p)] holds exactly when [s] is [p] followed by some text. *)
Lemma startswith_spec (s p : string) :
  Py.startswith s p = true <-> exists r, s = p ++ r.
Proof. apply prefix_spec. Qed.

(** [sub in s] holds exactly when [s] is some text, [sub], some text. *)
Lemma contains_spec (sub s : string) :
  Py.contains sub s = true <-> exists a b, s = a ++ sub ++ b.
Proof.
  induction s as [|c s IH]; cbn [Py.contains].
  - rewrite orb_false_r, prefix_spec. split.
    + intros [r H]. now exists "", r.
    + intros [[|x a] [b H]]; simpl in H; [now exists b | discriminate].
  - rewrite orb_true_iff, prefix_spec, IH. split.
    + intros [[r H] | [a [b H]]].
      * now exists "", r.
      * exists (String c a), b. simpl. now rewrite H.
    + intros [[|x a] [b H]]; simpl in H.
      * left. now exists b.
      * right. inversion H; subst. now exists a, b.
Qed.

(** Passing over the rest of a separator occurrence. *)
Lemma split_from_skip (sep : string) (t : string) :
  forall (cur rest : string),
  Py.split_from sep (String.length t) cur (t ++ rest)
  = Py.split_from sep 0 cur rest.
Proof.
  induction t as [|c t IH]; intros cur rest; simpl; [reflexivity | apply IH].
Qed.

Lemma split_from_not_nil (sep : string) (s : string) :
  forall skip cur, Py.split_from sep skip cur s <> [].
Proof.
  induction s as [|c s IH]; intros skip cur; cbn [Py.split_from];
    [discriminate|].
  destruct skip; [|apply IH].
  destruct (String.prefix sep (String c s)); [discriminate | apply IH].
Qed.

Lemma join_cons (sep x : string) (xs : list string) :
  xs <> [] -> Py.join sep (x :: xs) = x ++ sep ++ Py.join sep xs.
Proof. destruct xs; [contradiction | reflexivity]. Qed.

(** The tokens of a split, joined by the separator, give the text back. *)
Lemma join_split_from (sep : string) :
  sep <> "" ->
  forall n s cur,
  String.length s <= n ->
  Py.join sep (Py.split_from sep 0 cur s) = cur ++ s.
Proof.
  intros Hsep. induction n as [|n IH]; intros s cur Hlen.
  - destruct s; [|simpl in Hlen; lia]. simpl. now rewrite append_empty_r.
  - destruct s as [|c s]; [simpl; now rewrite append_empty_r|].
    cbn [Py.split_from].
    destruct (String.prefix sep (String c s)) eqn:E.
    + apply prefix_spec in E. destruct E as [r Hr].
      destruct sep as [|a sep']; [contradiction|].
      simpl in Hr. inversion Hr; subst.
      cbn [String.length]. rewrite Nat.sub_succ, Nat.sub_0_r.
      rewrite split_from_skip.
      rewrite join_cons by apply split_from_not_nil.
      rewrite IH.
      * reflexivity.
      * simpl in Hlen. rewrite append_length in Hlen. lia.
    + rewrite IH by (simpl in Hlen; lia).
      now rewrite append_assoc.
Qed.

Lemma join_split (s sep : string) (tokens : list string) :
  Py.split s sep = Ret tokens -> Py.join sep tokens = s.
Proof.
  unfold Py.split. destruct (String.length sep =? 0)%nat eqn:E;
    [discriminate|].
  intros H. inversion H; subst.
  apply (join_split_from sep) with (n := String.length s) (cur := "");
    [|lia].
  intros ->. discriminate.
Qed.

(** *** A family [float] accepts: the unsigned integers *)

Lemma digit_is_plain (c : ascii) :
  Py.is_digit c = true ->
  Py.is_ascii_char c = true /\ (c =? "_")%char = false /\
  Py.is_c_space c = false /\ (c =? "+")%char = false /\
  (c =? "-")%char = false /\ (c =? ".")%char = false /\
  (c =? "e")%char = false /\ (c =? "E")%char = false.
Proof.
  destruct c as [[] [] [] [] [] [] [] []]; vm_compute; intros H;
    try discriminate; repeat split.
Qed.

Lemma drop_underscores_digits (s : string) :
  forall prev,
  (prev =? "_")%char = false ->
  Py.all_chars Py.is_digit s = true ->
  Py.drop_underscores prev s = Some s.
Proof.
  induction s as [|c s IH]; intros prev Hprev Hall; cbn [Py.drop_underscores].
  - now rewrite Hprev.
  - cbn [Py.all_chars] in Hall. apply andb_true_iff in Hall.
    destruct Hall as [Hc Hs].
    destruct (digit_is_plain c Hc) as [_ [Hu _]].
    rewrite Hu, Hprev. cbn [andb]. now rewrite (IH c Hu Hs).
Qed.

Lemma rstrip_digits (s : string) :
  Py.all_chars Py.is_digit s = true -> Py.rstrip s = s.
Proof.
  induction s as [|c s IH]; intros Hall; cbn [Py.rstrip]; [reflexivity|].
  cbn [Py.all_chars] in Hall. apply andb_true_iff in Hall.
  destruct Hall as [Hc Hs]. rewrite (IH Hs).
  destruct (digit_is_plain c Hc) as [_ [_ [Hsp _]]].
  destruct s; [now rewrite Hsp | reflexivity].
Qed.

Lemma span_digits_all (s : string) :
  Py.all_chars Py.is_digit s = true -> snd (Py.span_digits s) = "".
Proof.
  induction s as [|c s IH]; intros Hall; cbn [Py.span_digits];
    [reflexivity|].
  cbn [Py.all_chars] in Hall. apply andb_true_iff in Hall.
  destruct Hall as [Hc Hs]. rewrite Hc. cbn [snd]. now apply IH.
Qed.

(** Every non-empty run of decimal digits converts. *)
Lemma float_of_digits (s : string) :
  s <> "" -> Py.all_chars Py.is_digit s = true -> Py.float s = Ret tt.
Proof.
  intros Hne Hall. destruct s as [|c s]; [contradiction|].
  assert (Hascii : Py.all_chars Py.is_ascii_char (String c s) = true).
  { apply all_chars_spec. intros x Hx.
    apply (proj1 (all_chars_spec _ _) Hall) in Hx.
    now apply digit_is_plain in Hx. }
  unfold Py.float. rewrite Hascii.
  rewrite (drop_underscores_digits _ zero eq_refl Hall).
  pose proof Hall as Hall'. cbn [Py.all_chars] in Hall'.
  apply andb_true_iff in Hall'. destruct Hall' as [Hc Hs].
  destruct (digit_is_plain c Hc) as [_ [_ [Hsp [Hplus [Hminus _]]]]].
  replace (Py.lstrip (String c s)) with (String c s)
    by (cbn [Py.lstrip]; now rewrite Hsp).
  rewrite (rstrip_digits _ Hall).
  unfold Py.strtod, Py.skip_sign. rewrite Hplus, Hminus. cbn [orb].
  cbn [Py.span_digits]. rewrite Hc, (span_digits_all _ Hs). reflexivity.
Qed.

(** ** not_empty *)

(** C7. For every string, [not_empty] raises its validation error exactly
    when the string is empty or consists solely of whitespace, and returns
    without error exactly on the other strings. *)
Theorem not_empty_fails_iff (s : string) :
  ((exists msg, not_empty s = Raise (ValidationError msg)) <->
   (s = "" \/ solely_whitespace s)) /\
  (not_empty s = Ret tt <-> ~ (s = "" \/ solely_whitespace s)).
Proof.
  unfold not_empty.
  destruct ((String.length s =? 0)%nat || Py.isspace s) eqn:E.
  - apply orb_true_iff in E.
    assert (H : s = "" \/ solely_whitespace s).
    { destruct E as [E | E].
      - left. now apply length_zero_iff_empty.
      - right. now apply isspace_spec in E. }
    split; split.
    + intros _. exact H.
    + intros _. eexists. reflexivity.
    + discriminate.
    + intros H'. contradiction.
  - apply orb_false_iff in E. destruct E as [E1 E2].
    assert (H : ~ (s = "" \/ solely_whitespace s)).
    { intros [H | H].
      - apply length_zero_iff_empty in H. congruence.
      - destruct s as [|a s]; [discriminate|].
        assert (Py.isspace (String a s) = true)
          by (apply isspace_spec; split; [discriminate | exact H]).
        congruence. }
    split; split.
    + intros [msg H']. discriminate.
    + intros H'. contradiction.
    + intros _. exact H.
    + reflexivity.
Qed.

(** ** numeric *)

(** C8. For every string, [only_digit_validator] raises its validation
    error exactly when [float] cannot convert the string, and returns
    exactly when it can; it passes 3.14 and -2 and fails abc and the empty
    string. *)
Theorem only_digit_validator_fails_iff (s : string) :
  ((exists msg, only_digit_validator s = Raise (ValidationError msg)) <->
   (exists why, Py.float s = Raise (ValueError why))) /\
  (only_digit_validator s = Ret tt <-> Py.float s = Ret tt) /\
  only_digit_validator "3.14" = Ret tt /\
  only_digit_validator "-2" = Ret tt /\
  only_digit_validator "abc"
    = Raise (ValidationError (not_a_number_message "abc")) /\
  only_digit_validator ""
    = Raise (ValidationError (not_a_number_message "")).
Proof.
  assert (Hfloat : forall e, Py.float s = Raise e -> exists why, e = ValueError why).
  { unfold Py.float. intros e H.
    repeat match type of H with
           | context [match ?x with _ => _ end] => destruct x
           end; inversion H; eauto. }
  unfold only_digit_validator at 1 2.
  destruct (Py.float s) as [[]|e] eqn:F; simpl.
  - repeat split; try reflexivity.
    + intros [msg H]. discriminate.
    + intros [why H]. discriminate.
  - destruct (Hfloat e eq_refl) as [why ->]. simpl.
    repeat split; try reflexivity; try discriminate; eauto.
Qed.

(** ** token_count *)

Lemma list_len_validator_empty_sep (n : Z) (value : string) :
  list_len_validator n "" value = Raise (ValueError "empty separator").
Proof. reflexivity. Qed.

(** C6, as stated, fails for the empty separator: the split raises, so
    there is no token count for a message to report. *)
Lemma token_count_empty_separator : ~ token_count_spec 3 "" "a b".
Proof.
  intros [tokens [Hsplit _]]. rewrite split_empty_sep in Hsplit. discriminate.
Qed.

(** C6, amended. For every n, every non-empty separator and every input
    string, the split gives tokens, [list_len_validator] passes when there
    are n of them and otherwise fails with the message that reports how many
    there are; with 3 and a space it passes on a b c and fails on a b with a
    message reporting 2. *)
Theorem token_count_nonempty_separator (n : Z) (sep value : string) :
  sep <> "" ->
  token_count_spec n sep value /\
  list_len_validator 3 " " "a b c" = Ret tt /\
  list_len_validator 3 " " "a b"
    = Raise (ValidationError
               "Количество элементов должно равняться 3. Сейчас 2.").
Proof.
  intros Hsep. split; [|split; reflexivity].
  exists (Py.split_from sep 0 "" value). split.
  - now apply split_nonempty_sep.
  - unfold list_len_validator. rewrite (split_nonempty_sep _ _ Hsep). simpl.
    now destruct (Z.of_nat _ =? n)%Z.
Qed.

Lemma token_count_nonempty_separator_witness :
  token_count_spec 2 "," "a,b" /\
  list_len_validator 3 " " "a b c" = Ret tt /\
  list_len_validator 3 " " "a b"
    = Raise (ValidationError
               "Количество элементов должно равняться 3. Сейчас 2.").
Proof.
  apply (token_count_nonempty_separator 2 "," "a,b"). discriminate.
Defined.

(** ** each_token *)

Lemma elem_errors_eq (vs : list validator) (i : nat) (elem : string)
  (errors : list string) :
  elem_errors vs i elem errors = (errors ++ token_failures vs i elem)%list.
Proof.
  revert errors. induction vs as [|v vs IH]; intros errors; simpl.
  - now rewrite app_nil_r.
  - unfold token_failures. simpl. destruct (v elem) as [u|e].
    + apply IH.
    + rewrite IH. unfold token_failures. now rewrite <- app_assoc.
Qed.

Lemma tokens_errors_eq (vs : list validator) (tokens : list string) :
  forall (i : nat) (errors : list string),
  tokens_errors vs i tokens errors = (errors ++ all_failures vs i tokens)%list.
Proof.
  induction tokens as [|elem tokens IH]; intros i errors; simpl.
  - now rewrite app_nil_r.
  - rewrite IH, elem_errors_eq. unfold all_failures. simpl.
    now rewrite <- app_assoc.
Qed.

Lemma list_elems_validator_empty_sep (vs : list validator) (value : string) :
  list_elems_validator "" vs value = Raise (ValueError "empty separator").
Proof. reflexivity. Qed.

(** C5, as stated, fails for the empty separator: the split raises outside
    the loop that collects, and the validator raises that error. *)
Lemma each_token_empty_separator :
  ~ each_token_spec "" [only_digit_validator] "1 2 x".
Proof.
  intros [tokens [Hsplit _]]. rewrite split_empty_sep in Hsplit. discriminate.
Qed.

(** C5, amended. For every non-empty separator, every list of element
    validators and every input string, [list_elems_validator] splits the
    input, applies every element validator to every token, and passes when
    no application raises; otherwise it fails once, with one line per
    application that raised, each carrying the token and its index, joined
    by newlines.  With a space and [only_digit_validator], 1 2 x fails with
    the single line for token x at index 2, and 1 2 3 passes. *)
Theorem each_token_nonempty_separator (sep : string)
  (elem_validators : list validator) (value : string) :
  sep <> "" ->
  each_token_spec sep elem_validators value /\
  all_failures [only_digit_validator] 0 ["1"; "2"; "x"]
    = [elem_error_message "x" 2 (not_a_number_message "x")] /\
  list_elems_validator " " [only_digit_validator] "1 2 x"
    = Raise (ValidationError
               (elem_error_message "x" 2 (not_a_number_message "x"))) /\
  list_elems_validator " " [only_digit_validator] "1 2 3" = Ret tt.
Proof.
  intros Hsep. split; [|repeat split; reflexivity].
  exists (Py.split_from sep 0 "" value). split.
  - now apply split_nonempty_sep.
  - unfold list_elems_validator. rewrite (split_nonempty_sep _ _ Hsep).
    simpl. rewrite tokens_errors_eq. simpl.
    now destruct (all_failures elem_validators 0 _).
Qed.

Lemma each_token_nonempty_separator_witness :
  each_token_spec "," [only_digit_validator; not_empty] "1,,x" /\
  all_failures [only_digit_validator] 0 ["1"; "2"; "x"]
    = [elem_error_message "x" 2 (not_a_number_message "x")] /\
  list_elems_validator " " [only_digit_validator] "1 2 x"
    = Raise (ValidationError
               (elem_error_message "x" 2 (not_a_number_message "x"))) /\
  list_elems_validator " " [only_digit_validator] "1 2 3" = Ret tt.
Proof.
  apply (each_token_nonempty_separator "," [only_digit_validator; not_empty]
           "1,,x").
  discriminate.
Defined.

(** ** The validated-input prompt *)

Lemma collect_errors_all (validators : list validator) (value : string) :
  Forall (validates value) validators ->
  forall errors,
  collect_errors validators value errors
  = Ret (errors ++ failure_messages validators value)%list.
Proof.
  induction 1 as [|v vs Hv _ IH]; intros errors; simpl.
  - now rewrite app_nil_r.
  - destruct Hv as [Hv | [m Hv]]; rewrite Hv.
    + apply IH.
    + rewrite IH. simpl. now rewrite <- app_assoc.
Qed.

Lemma for_each_print (lines : list string) :
  forall w,
  for_each lines print w
  = (Ret tt,
     World (stdin w) (choices w) (cwd w) (cells w)
           (console w ++ map Printed lines)%list).
Proof.
  induction lines as [|l lines IH]; intros w; simpl.
  - rewrite app_nil_r. now destruct w.
  - unfold bind, print, emit. rewrite IH. simpl. now rewrite <- app_assoc.
Qed.

Lemma validated_input_loop_accepts (input_name : string)
  (validators : list validator) (hook : M unit) (accepted : string)
  (rest : list string) (rejected : list string) :
  Forall (fun l => Forall (validates l) validators) (rejected ++ [accepted]) ->
  Forall (fun l => failure_messages validators l <> []) rejected ->
  failure_messages validators accepted = [] ->
  forall w,
  validated_input_loop input_name validators hook
    (rejected ++ accepted :: rest) w
  = match
      hook (World rest (choices w) (cwd w) (cells w)
              (console w
               ++ flat_map (rejected_round input_name validators) rejected
               ++ [Prompted (input_name ++ ": ")])%list)
    with
    | (Ret _, w2) => (Ret accepted, w2)
    | (Raise e, w2) => (Raise e, w2)
    end.
Proof.
  intros Hval Hrej Hacc.
  induction rejected as [|l rejected IH]; intros w.
  - simpl in *. inversion Hval as [|? ? Hv _]; subst.
    rewrite (collect_errors_all _ _ Hv). simpl. rewrite Hacc. reflexivity.
  - simpl in Hval. inversion Hval as [|? ? Hv Hval']; subst.
    inversion Hrej as [|? ? Hl Hrej']; subst.
    cbn [app validated_input_loop]. rewrite (collect_errors_all _ _ Hv).
    cbn [app]. rewrite for_each_print.
    destruct (0 <? List.length (failure_messages validators l))%nat eqn:E.
    + rewrite (IH Hval' Hrej'). cbn [flat_map rejected_round console stdin
        choices cwd cells].
      repeat rewrite <- app_assoc. reflexivity.
    + destruct (failure_messages validators l); [contradiction|discriminate].
Qed.

(** C2. For every prompt label, validator list, post-success hook and
    typed lines, where the lines before [accepted] are each rejected by some
    validator and [accepted] by none: [validated_input] shows, for each
    rejected line, the prompt and then the messages of all the validators
    that reject it, shows the prompt once more, runs the hook once on the
    world so reached, and returns [accepted] with the world the hook
    leaves.  With [[not_empty]], the empty line and then ok: one message,
    one second prompt, the hook once, and ok is returned. *)
Theorem validated_input_returns_first_valid (input_name : string)
  (validators : list validator) (hook : M unit)
  (rejected : list string) (accepted : string) (rest : list string)
  (w : world) :
  stdin w = (rejected ++ accepted :: rest)%list ->
  Forall (fun l => Forall (validates l) validators) (rejected ++ [accepted]) ->
  Forall (fun l => failure_messages validators l <> []) rejected ->
  failure_messages validators accepted = [] ->
  validated_input input_name validators hook w
  = match
      hook (World rest (choices w) (cwd w) (cells w)
              (console w
               ++ flat_map (rejected_round input_name validators) rejected
               ++ [Prompted (input_name ++ ": ")])%list)
    with
    | (Ret _, w2) => (Ret accepted, w2)
    | (Raise e, w2) => (Raise e, w2)
    end
  /\ validated_input input_name [not_empty] hook (World [""; "ok"] [] [] [] [])
     = match
         hook (World [] [] [] []
                 [Prompted (input_name ++ ": ");
                  Printed "Значение не должно быть пустым.";
                  Prompted (input_name ++ ": ")])
       with
       | (Ret _, w2) => (Ret "ok", w2)
       | (Raise e, w2) => (Raise e, w2)
       end.
Proof.
  intros Hin Hval Hrej Hacc. split; [|reflexivity].
  unfold validated_input. rewrite Hin.
  now apply validated_input_loop_accepts.
Qed.

Lemma validated_input_returns_first_valid_witness :
  validated_input "Введите подстроку" [not_empty] (print "done")
    (World [""; "ok"; "later"] [] [] [] [])
  = (Ret "ok",
     World ["later"] [] [] []
       [Prompted "Введите подстроку: ";
        Printed "Значение не должно быть пустым.";
        Prompted "Введите подстроку: ";
        Printed "done"])
  /\ validated_input "Введите подстроку" [not_empty] (print "done")
       (World [""; "ok"] [] [] [] [])
     = (Ret "ok",
        World [] [] [] []
          [Prompted "Введите подстроку: ";
           Printed "Значение не должно быть пустым.";
           Prompted "Введите подстроку: ";
           Printed "done"]).
Proof.
  apply (validated_input_returns_first_valid "Введите подстроку" [not_empty]
           (print "done") [""] "ok" ["later"]
           (World [""; "ok"; "later"] [] [] [] [])).
  - reflexivity.
  - constructor; [|constructor; [|constructor]].
    + constructor; [right; eexists; reflexivity | constructor].
    + constructor; [left; reflexivity | constructor].
  - constructor; [discriminate | constructor].
  - reflexivity.
Defined.

(** C9. With no validators, [validated_input] shows the prompt once, takes
    the first typed line whatever it is, runs the hook, and returns that
    line; when the hook returns, the result is the line, the empty one
    included. *)
Theorem validated_input_no_validators (input_name : string) (hook : M unit)
  (line : string) (rest : list string) (w : world) :
  stdin w = line :: rest ->
  validated_input input_name [] hook w
  = match
      hook (World rest (choices w) (cwd w) (cells w)
              (console w ++ [Prompted (input_name ++ ": ")])%list)
    with
    | (Ret _, w2) => (Ret line, w2)
    | (Raise e, w2) => (Raise e, w2)
    end.
Proof.
  intros Hin. unfold validated_input. rewrite Hin. reflexivity.
Qed.

Lemma validated_input_no_validators_witness :
  validated_input "Введите путь" [] (ret tt) (World [""; "x"] [] [] [] [])
  = (Ret "", World ["x"] [] [] [] [Prompted "Введите путь: "]).
Proof.
  apply (validated_input_no_validators "Введите путь" (ret tt) "" ["x"]
           (World [""; "x"] [] [] [] [])).
  reflexivity.
Defined.

(** ** The menu engine: resolving the non-selectable names *)

Lemma index_found (names : list string) (name : string) :
  forall i, Py.index names name = Ret i -> first_occurrence names name i.
Proof.
  induction names as [|y ys IH]; simpl; intros i H; [discriminate|].
  destruct (y =? name) eqn:E.
  - inversion H; subst. apply String.eqb_eq in E. subst. split.
    + reflexivity.
    + intros j Hj. lia.
  - destruct (Py.index ys name) as [k|e]; inversion H; subst.
    destruct (IH k eq_refl) as [Hk Hfirst]. split.
    + exact Hk.
    + intros [|j] Hj; simpl.
      * apply String.eqb_neq in E. congruence.
      * apply Hfirst. lia.
Qed.

Lemma index_present (names : list string) (name : string) :
  In name names -> exists i, Py.index names name = Ret i.
Proof.
  induction names as [|y ys IH]; simpl; intros H; [contradiction|].
  destruct (y =? name) eqn:E; [eauto|].
  destruct H as [H | H].
  - subst. rewrite String.eqb_refl in E. discriminate.
  - destruct (IH H) as [i ->]. eauto.
Qed.

Lemma index_absent (names : list string) (name : string) :
  ~ In name names ->
  Py.index names name = Raise (ValueError (Py.repr name ++ " is not in list")).
Proof.
  induction names as [|y ys IH]; simpl; intros H; [reflexivity|].
  destruct (y =? name) eqn:E.
  - apply String.eqb_eq in E. tauto.
  - rewrite IH; tauto.
Qed.

Lemma button_indices_resolved (names fixed : list string) :
  Forall (fun n => In n names) fixed ->
  exists indices,
    button_indices names fixed = Ret indices /\
    Forall2 (first_occurrence names) fixed indices.
Proof.
  induction 1 as [|n fixed Hn _ [indices [IH1 IH2]]]; simpl.
  - exists []. split; [reflexivity | constructor].
  - destruct (index_present _ _ Hn) as [i Hi]. rewrite Hi, IH1. simpl.
    exists (i :: indices). split; [reflexivity|].
    constructor; [now apply index_found | exact IH2].
Qed.

Lemma button_indices_unresolved (names fixed : list string) :
  Exists (fun n => ~ In n names) fixed ->
  exists n,
    In n fixed /\ ~ In n names /\
    button_indices names fixed
    = Raise (ValueError (Py.repr n ++ " is not in list")).
Proof.
  induction fixed as [|n fixed IH]; intros H; [inversion H|].
  simpl. destruct (Py.index names n) as [i|e] eqn:Hi.
  - assert (Hrest : Exists (fun n => ~ In n names) fixed).
    { inversion H as [? ? Hn | ? ? Hrest]; subst; [|exact Hrest].
      rewrite (index_absent _ _ Hn) in Hi. discriminate. }
    destruct (IH Hrest) as [m [Hm [Hnot ->]]]. simpl.
    exists m. auto.
  - exists n. split; [now left|].
    assert (Hnot : ~ In n names).
    { intros Hin. destruct (index_present _ _ Hin) as [i Hi'].
      congruence. }
    split; [exact Hnot|]. rewrite (index_absent _ _ Hnot) in Hi.
    inversion Hi; subst. reflexivity.
Qed.

(** C4. Once the render hook has returned: when every non-selectable name
    is among the displayed names, [select] hands the widget, for each of
    them, the position of its first occurrence in the displayed names, and
    goes on with whatever the widget returns; when some non-selectable name
    is not displayed, [select] raises the [ValueError] of the lookup in the
    world the render hook left, with no menu shown and no button pressed. *)
Theorem select_resolves_non_selectable (buttons non_selectable : list Button)
  (on_render : M unit) (print_selected_option : bool)
  (w w1 : world) (u : unit) :
  on_render w = (Ret u, w1) ->
  (Forall (fun n => In n (map get_name buttons))
          (map get_name non_selectable) ->
   exists indices,
     Forall2 (first_occurrence (map get_name buttons))
             (map get_name non_selectable) indices /\
     select buttons (Some non_selectable) on_render print_selected_option w
     = bind (cutie_select (map get_name buttons) indices)
            (press_selected buttons print_selected_option) w1) /\
  (Exists (fun n => ~ In n (map get_name buttons))
          (map get_name non_selectable) ->
   exists n,
     In n (map get_name non_selectable) /\
     ~ In n (map get_name buttons) /\
     select buttons (Some non_selectable) on_render print_selected_option w
     = (Raise (ValueError (Py.repr n ++ " is not in list")), w1)).
Proof.
  intros Hrender. split; intros H.
  - destruct (button_indices_resolved _ _ H) as [indices [Hres Hfirst]].
    exists indices. split; [exact Hfirst|].
    unfold select, bind at 1. rewrite Hrender.
    unfold bind at 1, bind at 1, lift. rewrite Hres. reflexivity.
  - destruct (button_indices_unresolved _ _ H) as [n [Hin [Hnot Hres]]].
    exists n. split; [exact Hin|]. split; [exact Hnot|].
    unfold select, bind at 1. rewrite Hrender.
    unfold bind at 1, bind at 1, lift. rewrite Hres. reflexivity.
Qed.

(** Three buttons, two of them named A: the non-selectable A resolves to
    position 0, and a non-selectable Z stops the call after the render. *)
Lemma select_resolves_non_selectable_witness :
  let buttons :=
    [MkButton "A" (print "first"); MkButton "B" (print "second");
     MkButton "A" (print "third")] in
  let w := World [] [1] [] [] [] in
  let w1 := World [] [1] [] [] [Cleared] in
  (exists indices,
     Forall2 (first_occurrence ["A"; "B"; "A"]) ["A"] indices /\
     select buttons (Some [MkButton "A" (ret tt)]) os_system_clear true w
     = bind (cutie_select ["A"; "B"; "A"] indices)
            (press_selected buttons true) w1) /\
  (exists n,
     In n ["Z"] /\ ~ In n ["A"; "B"; "A"] /\
     select buttons (Some [MkButton "Z" (ret tt)]) os_system_clear true w
     = (Raise (ValueError (Py.repr n ++ " is not in list")), w1)).
Proof.
  intros buttons w w1. split.
  - apply (select_resolves_non_selectable buttons [MkButton "A" (ret tt)]
             os_system_clear true w w1 tt eq_refl).
    constructor; [now left | constructor].
  - apply (select_resolves_non_selectable buttons [MkButton "Z" (ret tt)]
             os_system_clear true w w1 tt eq_refl).
    constructor. simpl. intros [H | [H | [H | []]]]; discriminate.
Defined.

(** ** Removing files *)

Lemma endswith_spec (s suf : string) :
  Py.endswith s suf = true <-> exists stem, s = stem ++ suf.
Proof.
  induction s as [|a s IH]; cbn [Py.endswith].
  - rewrite orb_false_r, String.eqb_eq. split.
    + intros <-. now exists "".
    + intros [[|b stem] H]; simpl in H; [assumption | discriminate].
  - rewrite orb_true_iff, String.eqb_eq, IH. split.
    + intros [<- | [stem ->]]; [now exists "" | now exists (String a stem)].
    + intros [[|b stem] H]; simpl in H.
      * now left.
      * right. inversion H; subst. now exists stem.
Qed.

(** C3. Whatever extension the user supplies, [rm_files_by_extension]
    removes the regular files of the working directory whose names end in
    .ext, the placeholder: the run is the same for any two arguments.  With
    the argument txt, a.txt stays and b.ext is removed. *)
Theorem rm_files_by_extension_ignores_argument (ext : string) (w : world) :
  rm_files_by_extension ext w
  = bind (rm_files (placeholder_selection w))
         (fun removed => for_each removed successfully_removed_message_for_file)
         w /\
  (forall f,
     In f (placeholder_selection w) <->
     In f (os_listdir w) /\ os_path_isfile w f = true /\
     exists stem, f = stem ++ ".ext") /\
  (forall other, rm_files_by_extension other w = rm_files_by_extension ext w) /\
  fst (rm_files_by_extension "txt"
         (World [] [] [("a.txt", RegularFile); ("b.ext", RegularFile)] [] []))
  = Ret tt /\
  cwd (snd (rm_files_by_extension "txt"
              (World [] [] [("a.txt", RegularFile); ("b.ext", RegularFile)]
                     [] [])))
  = [("a.txt", RegularFile)].
Proof.
  split; [|split; [|split; [|split]]]; try reflexivity.
  - unfold rm_files_by_extension, files_in_cwd_with_exts, bind at 1.
    unfold placeholder_selection. simpl. rewrite app_nil_r. reflexivity.
  - intros f. unfold placeholder_selection.
    rewrite filter_In, andb_true_iff, endswith_spec. tauto.
Qed.

Lemma rm_files_loop_quiet (files removed : list string) :
  forall w,
  console (snd (rm_files_loop files removed w)) = console w /\
  (forall result, fst (rm_files_loop files removed w) = Ret result ->
                  result = removed).
Proof.
  induction files as [|f files IH]; intros w; simpl.
  - split; [reflexivity | intros result H; now inversion H].
  - unfold bind, os_remove.
    destruct (lookup f (cwd w)) as [[|]|]; simpl.
    + destruct (IH (World (stdin w) (choices w) (unlink f (cwd w)) (cells w)
                          (console w))) as [IH1 IH2].
      split; [exact IH1 | exact IH2].
    + split; [reflexivity | discriminate].
    + split; [reflexivity | discriminate].
Qed.

(** [rm_files] never returns a name. *)
Lemma rm_files_returns_nothing (files : list string) (w : world) :
  forall result, fst (rm_files files w) = Ret result -> result = [].
Proof. apply rm_files_loop_quiet. Qed.

(** C1: what the code does.  [rm_files_contains] never prints a
    confirmation, whatever it removes; with draft1.txt and notes.txt it
    removes draft1.txt and prints nothing; and the whole path from the
    remove-group menu, third entry, with the empty line and then draft
    typed, removes draft1.txt and mydraft and shows the prompt twice, the
    validation message once, and no confirmation line. *)
Theorem rm_files_contains_prints_no_confirmation :
  (forall s files w,
     console (snd (rm_files_contains s files w)) = console w) /\
  rm_files_contains "draft" ["draft1.txt"; "notes.txt"]
    (World [] [] [("draft1.txt", RegularFile); ("notes.txt", RegularFile)]
           [] [])
  = (Ret tt, World [] [] [("notes.txt", RegularFile)] [] []) /\
  (forall main_menu,
     rm_files_group main_menu
       (World [""; "draft"] [2]
              [("draft1.txt", RegularFile); ("notes.txt", RegularFile);
               ("mydraft", RegularFile)] [] [])
     = (Ret tt,
        World [] [] [("notes.txt", RegularFile)] []
          [Printed "Список файлов в данном каталоге"; Printed ""; Cleared;
           Menu
             ["Удалить все файлы начинающиеся на определенную подстроку";
              "Удалить все файлы заканчивающиеся на определенную подстроку";
              "Удалить все файлы содержащие определенную подстроку";
              "Удалить все файлы по расширению"; "Выход"] [];
           Prompted "Введите подстроку: ";
           Printed "Значение не должно быть пустым.";
           Prompted "Введите подстроку: "])).
Proof.
  split; [|split; [reflexivity | intros main_menu; reflexivity]].
  intros s files w. unfold rm_files_contains, bind, rm_files.
  pose proof (rm_files_loop_quiet
                (filter (fun f => Py.contains s f) files) [] w) as [Hc Hr].
  destruct (rm_files_loop _ [] w) as [[removed|e] w'] eqn:E; simpl in *.
  - rewrite (Hr removed eq_refl). simpl. exact Hc.
  - exact Hc.
Qed.

(** *** What [rm_files] does remove *)

Lemma lookup_none_iff (name : string) (dir : list (string * kind)) :
  lookup name dir = None <-> ~ In name (map fst dir).
Proof.
  induction dir as [|[n k] dir IH]; simpl.
  - tauto.
  - destruct (n =? name) eqn:E.
    + apply String.eqb_eq in E. split; [discriminate | tauto].
    + apply String.eqb_neq in E. rewrite IH. tauto.
Qed.

Lemma unlink_names_incl (f x : string) (dir : list (string * kind)) :
  In x (map fst (unlink f dir)) -> In x (map fst dir).
Proof.
  induction dir as [|[n k] dir IH]; simpl; [tauto|].
  destruct (n =? f); simpl; tauto.
Qed.

Lemma unlink_names_nodup (f : string) (dir : list (string * kind)) :
  NoDup (map fst dir) -> NoDup (map fst (unlink f dir)).
Proof.
  induction dir as [|[n k] dir IH]; simpl; intros H; [constructor|].
  inversion H as [|? ? Hn Hd]; subst.
  destruct (n =? f); [exact Hd|]. simpl. constructor; [|now apply IH].
  intros Hin. apply Hn. eapply unlink_names_incl, Hin.
Qed.

Lemma lookup_unlink_same (f : string) (dir : list (string * kind)) :
  NoDup (map fst dir) -> lookup f (unlink f dir) = None.
Proof.
  induction dir as [|[n k] dir IH]; simpl; intros H; [reflexivity|].
  inversion H as [|? ? Hn Hd]; subst.
  destruct (n =? f) eqn:E.
  - apply String.eqb_eq in E. subst. now apply lookup_none_iff.
  - simpl. rewrite E. now apply IH.
Qed.

Lemma lookup_unlink_other (f g : string) (dir : list (string * kind)) :
  f <> g -> lookup g (unlink f dir) = lookup g dir.
Proof.
  intros Hfg. induction dir as [|[n k] dir IH]; simpl; [reflexivity|].
  destruct (n =? f) eqn:E.
  - apply String.eqb_eq in E. subst.
    destruct (f =? g) eqn:E'; [|reflexivity].
    apply String.eqb_eq in E'. contradiction.
  - simpl. now rewrite IH.
Qed.

(** Given distinct names of regular files of a directory without repeated
    names, [rm_files] removes each of them, leaves the other entries, prints
    nothing and returns the empty list. *)
Lemma rm_files_removes_all (files : list string) :
  NoDup files ->
  forall w,
  NoDup (os_listdir w) ->
  Forall (fun f => os_path_isfile w f = true) files ->
  exists w',
    rm_files files w = (Ret [], w') /\
    (forall f, In f files -> lookup f (cwd w') = None) /\
    (forall g, ~ In g files -> lookup g (cwd w') = lookup g (cwd w)) /\
    console w' = console w.
Proof.
  unfold rm_files, os_listdir.
  induction 1 as [|f files Hf Hnd IH]; intros w Hdir Hall.
  - exists w. simpl. unfold ret. repeat split; tauto.
  - inversion Hall as [|? ? Hfile Hrest]; subst.
    unfold os_path_isfile in Hfile.
    destruct (lookup f (cwd w)) as [[|]|] eqn:Hl; try discriminate.
    set (w1 := World (stdin w) (choices w) (unlink f (cwd w)) (cells w)
                     (console w)).
    destruct (IH w1) as [w' [Hrun [Hgone [Hkept Hquiet]]]].
    + now apply unlink_names_nodup.
    + apply Forall_forall. intros g Hg.
      rewrite Forall_forall in Hrest. specialize (Hrest g Hg).
      unfold os_path_isfile in *. simpl.
      rewrite lookup_unlink_other; [exact Hrest|]. intros ->. contradiction.
    + exists w'. simpl. unfold bind, os_remove. rewrite Hl. fold w1.
      split; [exact Hrun|]. split; [|split].
      * intros g [<- | Hg]; [|now apply Hgone].
        rewrite (Hkept f Hf). simpl. now apply lookup_unlink_same.
      * intros g Hg. rewrite Hkept by tauto. simpl.
        apply lookup_unlink_other. tauto.
      * exact Hquiet.
Qed.

(** So the first half of the scenario holds: the files that contain the
    substring are removed, while no line is printed for them. *)
Lemma rm_files_contains_removes (s : string) (files : list string) (w : world) :
  NoDup files ->
  NoDup (os_listdir w) ->
  Forall (fun f => os_path_isfile w f = true) files ->
  exists w',
    rm_files_contains s files w = (Ret tt, w') /\
    (forall f, In f files -> Py.contains s f = true ->
               lookup f (cwd w') = None) /\
    console w' = console w.
Proof.
  intros Hnd Hdir Hall.
  destruct (rm_files_removes_all (filter (fun f => Py.contains s f) files))
    with (w := w) as [w' [Hrun [Hgone [_ Hquiet]]]].
  - now apply NoDup_filter.
  - exact Hdir.
  - apply Forall_forall. intros f Hf. apply filter_In in Hf.
    rewrite Forall_forall in Hall. now apply Hall.
  - exists w'. unfold rm_files_contains, bind. rewrite Hrun. simpl.
    split; [reflexivity|]. split; [|exact Hquiet].
    intros f Hf Hc. apply Hgone. apply filter_In. tauto.
Qed.

(** ** Buttons made in a comprehension *)

Lemma bind_run {A B} (m : M A) (k : A -> M B) (w w' : world) (a : A) :
  m w = (Ret a, w') -> bind m k w = k a w'.
Proof. intros H. unfold bind. now rewrite H. Qed.

Lemma store_length (i : nat) (v : string) (cs : list (option string)) :
  List.length (store i v cs) = List.length cs.
Proof.
  revert i. induction cs as [|c cs IH]; intros [|i]; simpl; auto.
Qed.

Lemma nth_error_store (i : nat) (v : string) (cs : list (option string)) :
  i < List.length cs -> nth_error (store i v cs) i = Some (Some v).
Proof.
  revert i. induction cs as [|c cs IH]; intros [|i]; simpl; intros H;
    try lia; [reflexivity | apply IH; lia].
Qed.

Lemma store_at_end (v : string) (cs : list (option string)) (x : option string) :
  store (List.length cs) v (cs ++ [x]) = (cs ++ [Some v])%list.
Proof.
  induction cs as [|c cs IH]; simpl; [reflexivity | now rewrite IH].
Qed.

(** After the rounds the variable holds the last of [files]. *)
Lemma rounds_at_end (files : list string) :
  forall (cs : list (option string)) (x : option string),
  files <> [] ->
  rounds (List.length cs) files (cs ++ [x])
  = (cs ++ [Some (last files "")])%list.
Proof.
  unfold rounds.
  induction files as [|f files IH]; intros cs x Hne; [contradiction|].
  cbn [fold_left]. rewrite store_at_end. destruct files as [|g files].
  - reflexivity.
  - rewrite IH by discriminate. reflexivity.
Qed.

Lemma buttons_over_cell_run (c : nat) (body : string -> M unit)
  (files : list string) :
  forall w,
  c < List.length (cells w) ->
  buttons_over_cell c body files w
  = (Ret (map (round_button c body) files),
     World (stdin w) (choices w) (cwd w) (rounds c files (cells w))
           (console w)).
Proof.
  induction files as [|f files IH]; intros w Hc.
  - simpl. unfold ret. now destruct w.
  - cbn [buttons_over_cell].
    rewrite (bind_run (set_cell c f) _ w _ tt eq_refl).
    erewrite bind_run.
    2:{ unfold get_cell. cbn [cells]. rewrite nth_error_store by exact Hc.
        reflexivity. }
    erewrite bind_run.
    2:{ apply IH. cbn [cells]. now rewrite store_length. }
    reflexivity.
Qed.

(** A menu of comprehension buttons followed by one more button: whichever
    of the comprehension's buttons is picked, the body runs on the last of
    [files]. *)
Lemma comprehension_menu_runs_last (body : string -> M unit) (exit : Button)
  (files : list string) (i : nat) (rest : list nat) (w : world) :
  i < List.length files ->
  choices w = i :: rest ->
  (file <- new_cell ;;
   file_buttons <- buttons_over_cell file body files ;;
   select (file_buttons ++ [exit])%list None (ret tt) false)%io w
  = body (last files "")
      (World (stdin w) rest (cwd w) (cells w ++ [Some (last files "")])%list
             (console w ++ [Menu (files ++ [get_name exit]) []])%list).
Proof.
  intros Hi Hch.
  assert (Hne : files <> []) by (destruct files; [simpl in Hi; lia | discriminate]).
  rewrite (bind_run new_cell _ w _ (List.length (cells w)) eq_refl).
  erewrite bind_run.
  2:{ apply buttons_over_cell_run. cbn [cells]. rewrite length_app. simpl. lia. }
  cbn [stdin choices cwd cells console].
  rewrite rounds_at_end by exact Hne.
  unfold select. rewrite (bind_run (ret tt) _ _ _ tt eq_refl).
  erewrite bind_run.
  2:{ unfold cutie_select. cbn [choices]. rewrite Hch. reflexivity. }
  unfold press_selected. rewrite (bind_run (ret tt) _ _ _ tt eq_refl).
  rewrite nth_error_app1 by (rewrite length_map; exact Hi).
  rewrite nth_error_map, (nth_error_nth' files "" Hi). cbn [option_map].
  unfold press, round_button. cbn [action].
  erewrite bind_run.
  2:{ unfold get_cell. cbn [cells].
      rewrite nth_error_app2, Nat.sub_diag by lia. reflexivity. }
  cbn [stdin choices cwd cells console].
  rewrite map_app, map_map. cbn [get_name map]. rewrite map_id.
  reflexivity.
Qed.

Lemma last_is_nth (l : list string) (d : string) :
  l <> [] -> last l d = nth (List.length l - 1) l d.
Proof.
  induction l as [|a l IH]; intros H; [contradiction|].
  destruct l as [|b l]; [reflexivity|].
  change (last (a :: b :: l) d) with (last (b :: l) d).
  rewrite IH by discriminate. simpl. now rewrite Nat.sub_0_r.
Qed.

Lemma earlier_is_not_last (l : list string) (i : nat) (d : string) :
  NoDup l -> S i < List.length l -> nth i l d <> last l d.
Proof.
  intros Hnd Hi Heq.
  rewrite last_is_nth in Heq by (destruct l; [simpl in Hi; lia | discriminate]).
  apply (proj1 (NoDup_nth l d) Hnd) in Heq; lia.
Qed.

Lemma listed_nodup (ext : string) (w : world) :
  NoDup (os_listdir w) -> NoDup (listed ext w).
Proof. apply NoDup_filter. Qed.

(** C10, as stated, fails at the last file's button: with a.pdf and b.pdf
    listed, the button named b.pdf converts b.pdf. *)
Lemma last_button_converts_its_own_file :
  ~ converts_last_not_displayed (pdf_to_docx (ret tt)) "pdf" (two_pdfs 1) 1.
Proof.
  intros [_ H]. apply H. reflexivity.
Qed.

Lemma pdf_to_docx_run (main_menu : M unit) (w : world) (i : nat)
  (rest : list nat) :
  choices w = i :: rest ->
  i < List.length (listed "pdf" w) ->
  pdf_to_docx main_menu w
  = (Ret tt,
     World (stdin w) rest (cwd w)
       (cells w ++ [Some (last (listed "pdf" w) "")])%list
       (console w
        ++ [Cleared;
            Printed "Список файлов с расширением pdf в данном каталоге";
            Printed "";
            Menu (listed "pdf" w ++ ["Выход"]) [];
            PdfToDocx (last (listed "pdf" w) "")
              ("docx_" ++ Py.replace (last (listed "pdf" w) "")
                            ".pdf" ".docx")])%list).
Proof.
  intros Hch Hi. unfold pdf_to_docx.
  rewrite (bind_run os_system_clear _ w _ tt eq_refl).
  erewrite (bind_run (file_list ["pdf"])).
  2:{ unfold file_list, files_in_cwd_with_exts, print, emit, bind.
      cbn [flat_map]. rewrite app_nil_r. reflexivity. }
  rewrite (comprehension_menu_runs_last to_docx _ (listed "pdf" w) i rest);
    [| exact Hi | exact Hch].
  unfold to_docx, emit. cbn [stdin choices cwd cells console get_name].
  repeat rewrite <- app_assoc. reflexivity.
Qed.

Lemma docx_to_pdf_run (main_menu : M unit) (w : world) (i : nat)
  (rest : list nat) :
  choices w = i :: rest ->
  i < List.length (listed "docx" w) ->
  docx_to_pdf main_menu w
  = (Ret tt,
     World (stdin w) rest (cwd w)
       (cells w ++ [Some (last (listed "docx" w) "")])%list
       (console w
        ++ [Cleared;
            Printed "Список файлов с расширением docx в данном каталоге";
            Printed "";
            Menu (listed "docx" w ++ ["Выход"]) [];
            DocxToPdf (last (listed "docx" w) "")
              ("pdf_" ++ Py.replace (last (listed "docx" w) "")
                           ".docx" ".pdf")])%list).
Proof.
  intros Hch Hi. unfold docx_to_pdf.
  rewrite (bind_run os_system_clear _ w _ tt eq_refl).
  erewrite (bind_run (file_list ["docx"])).
  2:{ unfold file_list, files_in_cwd_with_exts, print, emit, bind.
      cbn [flat_map]. rewrite app_nil_r. reflexivity. }
  rewrite (comprehension_menu_runs_last to_pdf _ (listed "docx" w) i rest);
    [| exact Hi | exact Hch].
  unfold to_pdf, emit. cbn [stdin choices cwd cells console get_name].
  repeat rewrite <- app_assoc. reflexivity.
Qed.

Lemma last_after_four {A} (l : list A) (a b c d e x : A) :
  last (l ++ [a; b; c; d; e]) x = e.
Proof.
  replace (l ++ [a; b; c; d; e])%list with ((l ++ [a; b; c; d]) ++ [e])%list
    by (now rewrite <- app_assoc).
  apply last_last.
Qed.

(** C10, amended. In a directory without repeated names, when the user
    picks file button [i] of the menu built by [pdf_to_docx], the menu
    shows the listed files by name and the conversion that runs is that of
    the last listed file, whichever button was picked; for every button but
    the last one, that is not the file the button names.  The same holds for
    [docx_to_pdf]. *)
Theorem conversion_buttons_run_on_last_file (main_menu : M unit) (w : world)
  (i : nat) (rest : list nat) :
  choices w = i :: rest ->
  NoDup (os_listdir w) ->
  (i < List.length (listed "pdf" w) ->
   pdf_to_docx main_menu w
   = (Ret tt,
      World (stdin w) rest (cwd w)
        (cells w ++ [Some (last (listed "pdf" w) "")])%list
        (console w
         ++ [Cleared;
             Printed "Список файлов с расширением pdf в данном каталоге";
             Printed "";
             Menu (listed "pdf" w ++ ["Выход"]) [];
             PdfToDocx (last (listed "pdf" w) "")
               ("docx_" ++ Py.replace (last (listed "pdf" w) "")
                             ".pdf" ".docx")])%list) /\
   (S i < List.length (listed "pdf" w) ->
    converts_last_not_displayed (pdf_to_docx main_menu) "pdf" w i)) /\
  (i < List.length (listed "docx" w) ->
   docx_to_pdf main_menu w
   = (Ret tt,
      World (stdin w) rest (cwd w)
        (cells w ++ [Some (last (listed "docx" w) "")])%list
        (console w
         ++ [Cleared;
             Printed "Список файлов с расширением docx в данном каталоге";
             Printed "";
             Menu (listed "docx" w ++ ["Выход"]) [];
             DocxToPdf (last (listed "docx" w) "")
               ("pdf_" ++ Py.replace (last (listed "docx" w) "")
                            ".docx" ".pdf")])%list) /\
   (S i < List.length (listed "docx" w) ->
    converts_last_not_displayed (docx_to_pdf main_menu) "docx" w i)).
Proof.
  intros Hch Hnd. split; intros Hi.
  - pose proof (pdf_to_docx_run main_menu w i rest Hch Hi) as Hrun.
    split; [exact Hrun|]. intros Hearlier. split.
    + rewrite Hrun. unfold converted_source. cbn [snd console].
      now rewrite last_after_four.
    + intros Heq. symmetry in Heq. revert Heq.
      apply earlier_is_not_last; [now apply listed_nodup | exact Hearlier].
  - pose proof (docx_to_pdf_run main_menu w i rest Hch Hi) as Hrun.
    split; [exact Hrun|]. intros Hearlier. split.
    + rewrite Hrun. unfold converted_source. cbn [snd console].
      now rewrite last_after_four.
    + intros Heq. symmetry in Heq. revert Heq.
      apply earlier_is_not_last; [now apply listed_nodup | exact Hearlier].
Qed.

(** With a.pdf and b.pdf listed, the button named a.pdf converts b.pdf. *)
Lemma conversion_buttons_run_on_last_file_witness :
  pdf_to_docx (ret tt) (two_pdfs 0)
  = (Ret tt,
     World [] [] [("a.pdf", RegularFile); ("b.pdf", RegularFile)]
       [Some "b.pdf"]
       [Cleared;
        Printed "Список файлов с расширением pdf в данном каталоге";
        Printed "";
        Menu ["a.pdf"; "b.pdf"; "Выход"] [];
        PdfToDocx "b.pdf" "docx_b.docx"]) /\
  converts_last_not_displayed (pdf_to_docx (ret tt)) "pdf" (two_pdfs 0) 0.
Proof.
  assert (Hnd : NoDup (os_listdir (two_pdfs 0))).
  { constructor; [intros [H | []]; discriminate|].
    constructor; [intros [] | constructor]. }
  destruct (conversion_buttons_run_on_last_file (ret tt) (two_pdfs 0) 0 []
              eq_refl Hnd) as [Hpdf _].
  destruct Hpdf as [Hrun Hother]; [simpl; lia|].
  split; [exact Hrun | apply Hother; simpl; lia].
Defined.

(** * Further properties of the code *)

(** ** The validated-input prompt: what it returns, and when it does not *)

Lemma collect_errors_grows (validators : list validator) (value : string) :
  forall errors result,
  collect_errors validators value errors = Ret result ->
  exists more,
    result = (errors ++ more)%list /\
    (more = [] -> Forall (fun v => v value = Ret tt) validators).
Proof.
  induction validators as [|v vs IH]; intros errors result H; simpl in H.
  - inversion H; subst. exists []. split; [now rewrite app_nil_r | constructor].
  - destruct (v value) as [[]|e] eqn:Hv.
    + destruct (IH _ _ H) as [more [Hres Hall]]. exists more.
      split; [exact Hres|]. intros Hm. constructor; [exact Hv | now apply Hall].
    + destruct e; try discriminate.
      destruct (IH _ _ H) as [more [Hres _]]. exists (msg :: more).
      split; [now rewrite Hres, <- app_assoc | discriminate].
Qed.

Lemma validated_input_loop_sound (input_name : string)
  (validators : list validator) (hook : M unit) (lines : list string) :
  forall w value w',
  validated_input_loop input_name validators hook lines w = (Ret value, w') ->
  In value lines /\ Forall (fun v => v value = Ret tt) validators.
Proof.
  induction lines as [|line rest IH]; intros w value w' H;
    cbn [validated_input_loop] in H; [discriminate|].
  destruct (collect_errors validators line []) as [errors|e] eqn:Hc;
    [|discriminate].
  destruct (0 <? List.length errors)%nat eqn:Hlen.
  - rewrite for_each_print in H. apply IH in H. simpl. tauto.
  - match type of H with
    | context [hook ?w1] => destruct (hook w1) as [[u|e] w2]
    end; inversion H; subst.
    split; [now left|].
    destruct (collect_errors_grows _ _ _ _ Hc) as [more [Hres Hall]].
    apply Hall. simpl in Hres. subst. destruct more; [reflexivity|discriminate].
Qed.

(** X1. Whatever [validated_input] returns is one of the typed lines, and
    every validator of the list returns on it without raising. *)
Theorem validated_input_returns_only_valid (input_name : string)
  (validators : list validator) (hook : M unit) (w w' : world)
  (value : string) :
  validated_input input_name validators hook w = (Ret value, w') ->
  In value (stdin w) /\ Forall (fun v => v value = Ret tt) validators.
Proof. apply validated_input_loop_sound. Qed.

Lemma validated_input_returns_only_valid_witness :
  In "7" [" "; "x"; "7"; "8"] /\
  Forall (fun v => v "7" = Ret tt) [only_digit_validator; not_empty].
Proof.
  apply (validated_input_returns_only_valid "q"
           [only_digit_validator; not_empty] (ret tt)
           (World [" "; "x"; "7"; "8"] [] [] [] [])
           (World ["8"] [] [] []
              [Prompted "q: "; Printed (not_a_number_message " ");
               Printed "Значение не должно быть пустым.";
               Prompted "q: "; Printed (not_a_number_message "x");
               Prompted "q: "])
           "7").
  reflexivity.
Defined.

Lemma validated_input_loop_exhausted (input_name : string)
  (validators : list validator) (hook : M unit) (lines : list string) :
  Forall (fun l => Forall (validates l) validators /\
                   failure_messages validators l <> []) lines ->
  forall w,
  validated_input_loop input_name validators hook lines w
  = (Raise (EOFError "EOF when reading a line"),
     World [] (choices w) (cwd w) (cells w)
       (console w ++ flat_map (rejected_round input_name validators) lines
        ++ [Prompted (input_name ++ ": ")])%list).
Proof.
  induction 1 as [|l lines [Hv Hl] _ IH]; intros w.
  - reflexivity.
  - cbn [validated_input_loop]. rewrite (collect_errors_all _ _ Hv).
    cbn [app]. rewrite for_each_print.
    destruct (0 <? List.length (failure_messages validators l))%nat eqn:E.
    + rewrite IH. cbn [flat_map rejected_round console stdin choices cwd cells].
      repeat rewrite <- app_assoc. reflexivity.
    + destruct (failure_messages validators l); [contradiction|discriminate].
Qed.

(** X2. When every typed line is rejected, [validated_input] shows for
    each line the prompt and all its failure messages, prompts once more and
    raises the [EOFError] of [input]; the hook is not run, whatever it is. *)
Theorem validated_input_all_rejected (input_name : string)
  (validators : list validator) (hook : M unit) (w : world) :
  Forall (fun l => Forall (validates l) validators /\
                   failure_messages validators l <> []) (stdin w) ->
  validated_input input_name validators hook w
  = (Raise (EOFError "EOF when reading a line"),
     World [] (choices w) (cwd w) (cells w)
       (console w
        ++ flat_map (rejected_round input_name validators) (stdin w)
        ++ [Prompted (input_name ++ ": ")])%list).
Proof. intros H. now apply validated_input_loop_exhausted. Qed.

Lemma validated_input_all_rejected_witness :
  validated_input "q" [not_empty] (print "accepted")
    (World [""; " "] [] [] [] [])
  = (Raise (EOFError "EOF when reading a line"),
     World [] [] [] []
       [Prompted "q: "; Printed "Значение не должно быть пустым.";
        Prompted "q: "; Printed "Значение не должно быть пустым.";
        Prompted "q: "]).
Proof.
  apply (validated_input_all_rejected "q" [not_empty] (print "accepted")
           (World [""; " "] [] [] [] [])).
  assert (Hrejects : forall l, not_empty l
                                = Raise (ValidationError
                                           "Значение не должно быть пустым.") ->
            Forall (validates l) [not_empty] /\
            failure_messages [not_empty] l <> []).
  { intros l Hl. split.
    - constructor; [right; eexists; exact Hl | constructor].
    - unfold failure_messages. simpl. rewrite Hl. discriminate. }
  constructor; [now apply Hrejects|].
  constructor; [now apply Hrejects | constructor].
Defined.

Lemma collect_errors_stops (before after : list validator) (v : validator)
  (value : string) (e : exn) :
  Forall (validates value) before ->
  v value = Raise e ->
  (forall m, e <> ValidationError m) ->
  forall errors,
  collect_errors (before ++ v :: after) value errors = Raise e.
Proof.
  intros Hbefore Hv He.
  induction Hbefore as [|b bs Hb _ IH]; intros errors; simpl.
  - rewrite Hv. destruct e; try reflexivity. now contradiction (He msg).
  - destruct Hb as [Hb | [m Hb]]; rewrite Hb; apply IH.
Qed.

(** X3. When a validator raises anything but a [ValidationError] on the
    first typed line, [validated_input] raises that exception right after
    the prompt: the messages of the validators that had rejected the line
    before it are not shown, the later validators and the hook are not
    run. *)
Theorem validated_input_propagates_other_errors (input_name : string)
  (before after : list validator) (v : validator) (hook : M unit)
  (line : string) (rest : list string) (e : exn) (w : world) :
  stdin w = line :: rest ->
  Forall (validates line) before ->
  v line = Raise e ->
  (forall m, e <> ValidationError m) ->
  validated_input input_name (before ++ v :: after) hook w
  = (Raise e,
     World rest (choices w) (cwd w) (cells w)
       (console w ++ [Prompted (input_name ++ ": ")])%list).
Proof.
  intros Hin Hbefore Hv He. unfold validated_input. rewrite Hin.
  cbn [validated_input_loop].
  now rewrite (collect_errors_stops before after v line e Hbefore Hv He).
Qed.

Lemma validated_input_propagates_other_errors_witness :
  validated_input "q" [not_empty; list_len_validator 3 ""; only_digit_validator]
    (print "accepted") (World [""; "1 2 3"] [] [] [] [])
  = (Raise (ValueError "empty separator"),
     World ["1 2 3"] [] [] [] [Prompted "q: "]).
Proof.
  apply (validated_input_propagates_other_errors "q" [not_empty]
           [only_digit_validator] (list_len_validator 3 "") (print "accepted")
           "" ["1 2 3"] (ValueError "empty separator")
           (World [""; "1 2 3"] [] [] [] [])).
  - reflexivity.
  - constructor; [right; eexists; reflexivity | constructor].
  - reflexivity.
  - discriminate.
Defined.

(** ** The validators of the file as validators of the prompt *)

(** X4. On every string, [not_empty] and [only_digit_validator] return or
    raise a [ValidationError], and so do [list_len_validator] and
    [list_elems_validator] for a non-empty separator, the latter whatever
    its element validators raise. *)
Theorem file_validators_validate (value sep : string) (n : Z)
  (elem_validators : list validator) :
  sep <> "" ->
  validates value not_empty /\
  validates value only_digit_validator /\
  validates value (list_len_validator n sep) /\
  validates value (list_elems_validator sep elem_validators).
Proof.
  intros Hsep. unfold validates. repeat split.
  - unfold not_empty. destruct (_ || _); eauto.
  - unfold only_digit_validator.
    destruct (Py.float value) as [[]|e] eqn:F; [now left|].
    right. unfold Py.float in F.
    repeat match type of F with
           | context [match ?x with _ => _ end] => destruct x
           end; inversion F; subst; simpl; eauto.
  - unfold list_len_validator. rewrite (split_nonempty_sep _ _ Hsep). simpl.
    destruct (_ =? _)%Z; simpl; eauto.
  - unfold list_elems_validator. rewrite (split_nonempty_sep _ _ Hsep). simpl.
    destruct (_ <? _)%nat; eauto.
Qed.

Lemma file_validators_validate_witness :
  validates "1,,x" not_empty /\
  validates "1,,x" only_digit_validator /\
  validates "1,,x" (list_len_validator 2 ",") /\
  validates "1,,x" (list_elems_validator "," [list_len_validator 1 ""]).
Proof.
  apply (file_validators_validate "1,,x" "," 2 [list_len_validator 1 ""]).
  discriminate.
Defined.

(** ** The validators of the compression prompt *)

(** Whitespace that [float] leaves as it is or turns into a space. *)
Definition blank (c : ascii) : bool :=
  Py.is_space c && (Py.code c <? 127)%nat.

Lemma space_in_ascii_is_blank (c : ascii) :
  Py.is_space c = true -> Py.is_ascii_char c = true -> blank c = true.
Proof.
  destruct c as [[] [] [] [] [] [] [] []]; vm_compute; intros H1 H2;
    try discriminate; reflexivity.
Qed.

Lemma blank_is_plain (c : ascii) :
  blank c = true ->
  (c =? "_")%char = false /\ Py.is_digit c = false /\
  (c =? "+")%char = false /\ (c =? "-")%char = false /\
  (c =? ".")%char = false /\
  (Py.lower c =? "i")%char = false /\ (Py.lower c =? "n")%char = false.
Proof.
  destruct c as [[] [] [] [] [] [] [] []]; vm_compute; intros H;
    try discriminate; repeat split.
Qed.

Lemma to_ascii_text_blank (s : string) :
  Py.all_chars Py.is_space s = true ->
  Py.all_chars blank (Py.to_ascii_text s) = true.
Proof.
  induction s as [|c s IH]; intros H; [reflexivity|].
  cbn [Py.all_chars] in H. apply andb_true_iff in H. destruct H as [Hc Hs].
  cbn [Py.to_ascii_text].
  destruct (Py.code c <? 127)%nat eqn:E.
  - cbn [Py.all_chars]. unfold blank at 1. rewrite Hc, E. now apply IH.
  - rewrite Hc. cbn [Py.all_chars]. now rewrite (IH Hs).
Qed.

Lemma ascii_space_blank (s : string) :
  Py.all_chars Py.is_space s = true ->
  Py.all_chars Py.is_ascii_char s = true ->
  Py.all_chars blank s = true.
Proof.
  induction s as [|c s IH]; intros H1 H2; [reflexivity|].
  cbn [Py.all_chars] in *. apply andb_true_iff in H1, H2.
  destruct H1 as [Hc Hs], H2 as [Ha Has].
  now rewrite (space_in_ascii_is_blank c Hc Ha), (IH Hs Has).
Qed.

Lemma drop_underscores_blank (s : string) :
  forall prev,
  (prev =? "_")%char = false ->
  Py.all_chars blank s = true ->
  Py.drop_underscores prev s = Some s.
Proof.
  induction s as [|c s IH]; intros prev Hprev Hall; cbn [Py.drop_underscores].
  - now rewrite Hprev.
  - cbn [Py.all_chars] in Hall. apply andb_true_iff in Hall.
    destruct Hall as [Hc Hs].
    destruct (blank_is_plain c Hc) as [Hu _].
    rewrite Hu, Hprev. cbn [andb]. now rewrite (IH c Hu Hs).
Qed.

Lemma lstrip_blank (s : string) :
  Py.all_chars blank s = true ->
  Py.lstrip s = "" \/
  exists c r, Py.lstrip s = String c r /\ blank c = true /\
              Py.is_c_space c = false.
Proof.
  induction s as [|c s IH]; intros Hall; [now left|].
  cbn [Py.all_chars] in Hall. apply andb_true_iff in Hall.
  destruct Hall as [Hc Hs]. cbn [Py.lstrip].
  destruct (Py.is_c_space c) eqn:E; [now apply IH|].
  right. now exists c, s.
Qed.

Lemma rstrip_keeps_head (c : ascii) (r : string) :
  Py.is_c_space c = false -> exists r', Py.rstrip (String c r) = String c r'.
Proof.
  intros Hc. cbn [Py.rstrip]. rewrite Hc.
  destruct (Py.rstrip r); eauto.
Qed.

Lemma no_number_after_blank (c : ascii) (r : string) :
  blank c = true ->
  Py.strtod (String c r) = None /\ Py.parse_inf_or_nan (String c r) = None.
Proof.
  intros Hc.
  destruct (blank_is_plain c Hc) as [_ [Hd [Hp [Hm [Hdot [Hi Hn]]]]]].
  unfold Py.strtod, Py.parse_inf_or_nan, Py.skip_sign.
  rewrite Hp, Hm. cbn [orb Py.span_digits]. rewrite Hd, Hdot.
  cbn [orb Py.match_word]. now rewrite Hi, Hn.
Qed.

(** [float] converts no string made of whitespace only. *)
Lemma float_rejects_whitespace (s : string) :
  Py.all_chars Py.is_space s = true ->
  exists why, Py.float s = Raise (ValueError why).
Proof.
  intros Hsp. unfold Py.float.
  set (t := if Py.all_chars Py.is_ascii_char s then s
            else Py.to_ascii_text s).
  assert (Ht : Py.all_chars blank t = true).
  { unfold t. destruct (Py.all_chars Py.is_ascii_char s) eqn:E.
    - now apply ascii_space_blank.
    - now apply to_ascii_text_blank. }
  rewrite (drop_underscores_blank t zero eq_refl Ht).
  destruct (lstrip_blank t Ht) as [-> | [c [r [-> [Hc Hcs]]]]].
  - simpl. eauto.
  - destruct (rstrip_keeps_head c r Hcs) as [r' ->].
    destruct (no_number_after_blank c r' Hc) as [-> ->]. eauto.
Qed.

Lemma accepted_number_is_not_blank (s : string) :
  only_digit_validator s = Ret tt -> not_empty s = Ret tt.
Proof.
  intros H. unfold not_empty.
  destruct ((String.length s =? 0)%nat || Py.isspace s) eqn:E; [|reflexivity].
  assert (Hsp : Py.all_chars Py.is_space s = true).
  { apply orb_true_iff in E. destruct E as [E | E].
    - apply length_zero_iff_empty in E. now subst.
    - destruct s; [discriminate | exact E]. }
  destruct (float_rejects_whitespace s Hsp) as [why Hf].
  unfold only_digit_validator in H. rewrite Hf in H. discriminate.
Qed.

(** X5. A string that [only_digit_validator] accepts is accepted by
    [not_empty] too: in the validator list of the compression prompt the
    second validator never rejects a line on its own. *)
Theorem only_digit_validator_implies_not_empty (s : string) :
  only_digit_validator s = Ret tt -> not_empty s = Ret tt.
Proof. apply accepted_number_is_not_blank. Qed.

Lemma only_digit_validator_implies_not_empty_witness :
  not_empty " 75 " = Ret tt.
Proof.
  apply (only_digit_validator_implies_not_empty " 75 "). reflexivity.
Defined.

(** ** Listing the working directory *)

Lemma count_occ_filter (p : string -> bool) (l : list string) (x : string) :
  count_occ string_dec (filter p l) x
  = if p x then count_occ string_dec l x else 0.
Proof.
  induction l as [|y l IH]; simpl; [now destruct (p x)|].
  destruct (p y) eqn:Hy; simpl; destruct (string_dec y x) as [-> | Hne].
  - rewrite IH, Hy. reflexivity.
  - exact IH.
  - rewrite IH, Hy. reflexivity.
  - exact IH.
Qed.

Lemma count_occ_flat_map (g : string -> list string) (l : list string)
  (x : string) :
  count_occ string_dec (flat_map g l) x
  = list_sum (map (fun y => count_occ string_dec (g y) x) l).
Proof.
  induction l as [|y l IH]; simpl; [reflexivity|].
  now rewrite count_occ_app, IH.
Qed.

Lemma list_sum_indicator (p : string -> bool) (l : list string) :
  list_sum (map (fun y => if p y then 1 else 0) l) = List.length (filter p l).
Proof.
  induction l as [|y l IH]; simpl; [reflexivity|].
  destruct (p y); simpl; now rewrite IH.
Qed.

Lemma files_in_cwd_with_exts_members (exts : list string) (w : world) :
  exists files,
    files_in_cwd_with_exts exts w = (Ret files, w) /\
    forall f,
      In f files <->
      In f (os_listdir w) /\ os_path_isfile w f = true /\
      exists ext stem, In ext exts /\ f = stem ++ "." ++ ext.
Proof.
  eexists. split; [reflexivity|]. intros f.
  rewrite in_flat_map. split.
  - intros [ext [Hext Hf]]. apply filter_In in Hf.
    destruct Hf as [Hin Hp]. apply andb_true_iff in Hp.
    destruct Hp as [Hfile Hend]. apply endswith_spec in Hend.
    destruct Hend as [stem ->]. repeat split; try assumption.
    now exists ext, stem.
  - intros [Hin [Hfile [ext [stem [Hext ->]]]]]. exists ext.
    split; [exact Hext|]. apply filter_In. split; [exact Hin|].
    apply andb_true_iff. split; [exact Hfile|].
    apply endswith_spec. now exists stem.
Qed.

(** X6. [files_in_cwd_with_exts] leaves the world as it is and returns
    exactly the regular files of the working directory whose name ends in
    a dot and one of the extensions. *)
Theorem files_in_cwd_with_exts_lists (exts : list string) (w : world) :
  exists files,
    files_in_cwd_with_exts exts w = (Ret files, w) /\
    forall f,
      In f files <->
      In f (os_listdir w) /\ os_path_isfile w f = true /\
      exists ext stem, In ext exts /\ f = stem ++ "." ++ ext.
Proof. apply files_in_cwd_with_exts_members. Qed.

(** X7. In a directory without repeated names, [files_in_cwd_with_exts]
    lists a regular file once for every entry of [exts] it ends with: twice
    when an extension is given twice or when two given extensions are both
    endings of the name. *)
Theorem files_in_cwd_with_exts_repeats (exts : list string) (w : world)
  (f : string) :
  NoDup (os_listdir w) ->
  In f (os_listdir w) ->
  os_path_isfile w f = true ->
  exists files,
    files_in_cwd_with_exts exts w = (Ret files, w) /\
    count_occ string_dec files f
    = List.length (filter (fun ext => Py.endswith f ("." ++ ext)) exts).
Proof.
  intros Hnd Hin Hfile. eexists. split; [reflexivity|].
  rewrite count_occ_flat_map, <- list_sum_indicator.
  f_equal. apply map_ext. intros ext.
  rewrite count_occ_filter, Hfile. cbn [andb].
  destruct (Py.endswith f ("." ++ ext)); [|reflexivity].
  now apply NoDup_count_occ'.
Qed.

Lemma files_in_cwd_with_exts_repeats_witness :
  exists files,
    files_in_cwd_with_exts ["gz"; "tar.gz"; "gz"]
      (World [] [] [("a.tar.gz", RegularFile); ("b.gz", RegularFile)] [] [])
    = (Ret files,
       World [] [] [("a.tar.gz", RegularFile); ("b.gz", RegularFile)] [] [])
    /\
    count_occ string_dec files "a.tar.gz"
    = List.length
        (filter (fun ext => Py.endswith "a.tar.gz" ("." ++ ext))
                ["gz"; "tar.gz"; "gz"]).
Proof.
  apply (files_in_cwd_with_exts_repeats ["gz"; "tar.gz"; "gz"]
           (World [] [] [("a.tar.gz", RegularFile); ("b.gz", RegularFile)]
                  [] [])
           "a.tar.gz").
  - constructor; [intros [H | []]; discriminate|].
    constructor; [intros [] | constructor].
  - now left.
  - reflexivity.
Defined.

(** The heading [file_list] prints for [exts]. *)
Definition file_list_heading (exts : list string) : string :=
  match exts with
  | [] => "Список файлов в данном каталоге"
  | [ext] => "Список файлов с расширением " ++ ext ++ " в данном каталоге"
  | _ => "Список файлов с расширением " ++ Py.join "; " exts
         ++ " в данном каталоге"
  end.

(** X8. [file_list] prints its heading and an empty line, changes nothing
    else, and returns the regular files of the working directory: all of
    them when no extension is given, otherwise those whose name ends in a
    dot and one of the extensions. *)
Theorem file_list_lists (exts : list string) (w : world) :
  exists files,
    file_list exts w
    = (Ret files,
       World (stdin w) (choices w) (cwd w) (cells w)
         (console w ++ [Printed (file_list_heading exts); Printed ""])%list)
    /\
    forall f,
      In f files <->
      In f (os_listdir w) /\ os_path_isfile w f = true /\
      (exts = [] \/ exists ext stem, In ext exts /\ f = stem ++ "." ++ ext).
Proof.
  destruct exts as [|e exts].
  - eexists. split.
    + unfold file_list, bind, print, emit. cbn [stdin choices cwd cells console].
      rewrite <- app_assoc. reflexivity.
    + intros f. unfold os_listdir, os_path_isfile. cbn [cwd].
      rewrite filter_In. tauto.
  - destruct (files_in_cwd_with_exts_members (e :: exts) w)
      as [files [Hrun Hfiles]].
    exists files. split.
    + unfold file_list, bind, print, emit.
      cbn [stdin choices cwd cells console].
      unfold files_in_cwd_with_exts in *. cbn [cwd] in *.
      inversion Hrun as [Hf]. rewrite <- app_assoc.
      unfold os_listdir, os_path_isfile. cbn [cwd app].
      destruct exts; reflexivity.
    + intros f. rewrite Hfiles. split.
      * intros [H1 [H2 H3]]. auto.
      * intros [H1 [H2 [H3 | H3]]]; [discriminate | auto].
Qed.

(** ** Removing files: failures and the three name filters *)

Lemma rm_files_loop_app (xs ys removed : list string) :
  forall w,
  rm_files_loop (xs ++ ys) removed w
  = match rm_files_loop xs removed w with
    | (Ret _, w1) => rm_files_loop ys removed w1
    | (Raise e, w1) => (Raise e, w1)
    end.
Proof.
  induction xs as [|x xs IH]; intros w; [reflexivity|].
  cbn [app rm_files_loop]. unfold bind.
  destruct (os_remove x w) as [[u|e] w1]; [apply IH | reflexivity].
Qed.

(** X9. [rm_files] stops at the first name it cannot remove: given
    distinct regular files and then a name that is absent from the
    directory or was among those files, it removes the files, raises
    [FileNotFoundError] for that name, prints nothing, and leaves every
    other entry, the later names of the list included, in place. *)
Theorem rm_files_stops_at_missing (done later : list string) (bad : string)
  (w : world) :
  NoDup done ->
  NoDup (os_listdir w) ->
  Forall (fun f => os_path_isfile w f = true) done ->
  In bad done \/ lookup bad (cwd w) = None ->
  exists w',
    rm_files (done ++ bad :: later) w = (Raise (FileNotFoundError bad), w') /\
    (forall f, In f done -> lookup f (cwd w') = None) /\
    (forall g, ~ In g done -> lookup g (cwd w') = lookup g (cwd w)) /\
    console w' = console w.
Proof.
  intros Hnd Hdir Hall Hbad.
  destruct (rm_files_removes_all done Hnd w Hdir Hall)
    as [w1 [Hrun [Hgone [Hkept Hquiet]]]].
  assert (Hmissing : lookup bad (cwd w1) = None).
  { destruct (in_dec string_dec bad done) as [Hin | Hout].
    - now apply Hgone.
    - rewrite (Hkept bad Hout). destruct Hbad; [contradiction | assumption]. }
  exists w1. unfold rm_files in *. rewrite rm_files_loop_app, Hrun.
  cbn [rm_files_loop]. unfold bind, os_remove. rewrite Hmissing.
  auto.
Qed.

Lemma rm_files_stops_at_missing_witness :
  exists w',
    rm_files (["a"] ++ "a" :: ["b"])
      (World [] [] [("a", RegularFile); ("b", RegularFile)] [] [])
    = (Raise (FileNotFoundError "a"), w') /\
    (forall f, In f ["a"] -> lookup f (cwd w') = None) /\
    (forall g, ~ In g ["a"] ->
               lookup g (cwd w')
               = lookup g [("a", RegularFile); ("b", RegularFile)]) /\
    console w' = [].
Proof.
  apply (rm_files_stops_at_missing ["a"] ["b"] "a"
           (World [] [] [("a", RegularFile); ("b", RegularFile)] [] [])).
  - constructor; [intros [] | constructor].
  - constructor; [intros [H | []]; discriminate|].
    constructor; [intros [] | constructor].
  - constructor; [reflexivity | constructor].
  - left. now left.
Defined.

Lemma rm_files_loop_keyboard (files removed : list string) :
  forall w,
  stdin (snd (rm_files_loop files removed w)) = stdin w /\
  choices (snd (rm_files_loop files removed w)) = choices w /\
  cells (snd (rm_files_loop files removed w)) = cells w.
Proof.
  induction files as [|f files IH]; intros w; [now repeat split|].
  cbn [rm_files_loop]. unfold bind, os_remove.
  destruct (lookup f (cwd w)) as [[|]|]; try now repeat split.
  apply (IH (World (stdin w) (choices w) (unlink f (cwd w)) (cells w)
                   (console w))).
Qed.

(** The common body of [rm_files_startswith], [rm_files_endswith] and
    [rm_files_contains], for the filter [p]. *)
Lemma rm_files_filtered (p : string -> bool) (files : list string)
  (w : world) :
  NoDup files ->
  NoDup (os_listdir w) ->
  Forall (fun f => os_path_isfile w f = true) files ->
  exists w',
    (removed <- rm_files (filter p files) ;;
     for_each removed successfully_removed_message_for_file)%io w
    = (Ret tt, w') /\
    (forall f, In f files -> p f = true -> lookup f (cwd w') = None) /\
    (forall g, ~ (In g files /\ p g = true) ->
               lookup g (cwd w') = lookup g (cwd w)) /\
    console w' = console w /\
    stdin w' = stdin w /\ choices w' = choices w.
Proof.
  intros Hnd Hdir Hall.
  destruct (rm_files_removes_all (filter p files)) with (w := w)
    as [w' [Hrun [Hgone [Hkept Hquiet]]]].
  - now apply NoDup_filter.
  - exact Hdir.
  - apply Forall_forall. intros f Hf. apply filter_In in Hf.
    rewrite Forall_forall in Hall. now apply Hall.
  - exists w'. unfold bind. rewrite Hrun. simpl.
    split; [reflexivity|]. split; [|split; [|split; [exact Hquiet|]]].
    + intros f Hf Hp. apply Hgone. apply filter_In. tauto.
    + intros g Hg. apply Hkept. rewrite filter_In. exact Hg.
    + pose proof (rm_files_loop_keyboard (filter p files) [] w) as Hk.
      unfold rm_files in Hrun. rewrite Hrun in Hk. cbn [snd] in Hk. tauto.
Qed.

(** X10. Given distinct regular files of a directory without repeated
    names, [rm_files_startswith] removes exactly those that begin with [s]:
    they are gone, every other entry is as before, and nothing is
    printed. *)
Theorem rm_files_startswith_removes (s : string) (files : list string)
  (w : world) :
  NoDup files ->
  NoDup (os_listdir w) ->
  Forall (fun f => os_path_isfile w f = true) files ->
  exists w',
    rm_files_startswith s files w = (Ret tt, w') /\
    (forall f, In f files -> (exists r, f = s ++ r) ->
               lookup f (cwd w') = None) /\
    (forall g, ~ (In g files /\ exists r, g = s ++ r) ->
               lookup g (cwd w') = lookup g (cwd w)) /\
    console w' = console w.
Proof.
  intros Hnd Hdir Hall.
  destruct (rm_files_filtered (fun f => Py.startswith f s) files w
              Hnd Hdir Hall) as [w' [Hrun [Hgone [Hkept [Hquiet _]]]]].
  exists w'. split; [exact Hrun|]. split; [|split; [|exact Hquiet]].
  - intros f Hf Hs. apply Hgone; [exact Hf | now apply startswith_spec].
  - intros g Hg. apply Hkept. rewrite startswith_spec. exact Hg.
Qed.

(** X11. Under the same conditions [rm_files_endswith] removes exactly
    the files that end with [s]. *)
Theorem rm_files_endswith_removes (s : string) (files : list string)
  (w : world) :
  NoDup files ->
  NoDup (os_listdir w) ->
  Forall (fun f => os_path_isfile w f = true) files ->
  exists w',
    rm_files_endswith s files w = (Ret tt, w') /\
    (forall f, In f files -> (exists stem, f = stem ++ s) ->
               lookup f (cwd w') = None) /\
    (forall g, ~ (In g files /\ exists stem, g = stem ++ s) ->
               lookup g (cwd w') = lookup g (cwd w)) /\
    console w' = console w.
Proof.
  intros Hnd Hdir Hall.
  destruct (rm_files_filtered (fun f => Py.endswith f s) files w
              Hnd Hdir Hall) as [w' [Hrun [Hgone [Hkept [Hquiet _]]]]].
  exists w'. split; [exact Hrun|]. split; [|split; [|exact Hquiet]].
  - intros f Hf Hs. apply Hgone; [exact Hf | now apply endswith_spec].
  - intros g Hg. apply Hkept. rewrite endswith_spec. exact Hg.
Qed.

(** X12. Under the same conditions [rm_files_contains] removes exactly
    the files in which [s] occurs; with the empty [s] that is every file of
    the list. *)
Theorem rm_files_contains_removes_exactly (s : string) (files : list string)
  (w : world) :
  NoDup files ->
  NoDup (os_listdir w) ->
  Forall (fun f => os_path_isfile w f = true) files ->
  exists w',
    rm_files_contains s files w = (Ret tt, w') /\
    (forall f, In f files -> (exists a b, f = a ++ s ++ b) ->
               lookup f (cwd w') = None) /\
    (forall g, ~ (In g files /\ exists a b, g = a ++ s ++ b) ->
               lookup g (cwd w') = lookup g (cwd w)) /\
    console w' = console w /\
    (s = "" -> forall f, In f files -> lookup f (cwd w') = None).
Proof.
  intros Hnd Hdir Hall.
  destruct (rm_files_filtered (fun f => Py.contains s f) files w
              Hnd Hdir Hall) as [w' [Hrun [Hgone [Hkept [Hquiet _]]]]].
  exists w'. split; [exact Hrun|].
  split; [|split; [|split; [exact Hquiet|]]].
  - intros f Hf Hs. apply Hgone; [exact Hf | now apply contains_spec].
  - intros g Hg. apply Hkept. rewrite contains_spec. exact Hg.
  - intros -> f Hf. apply Hgone; [exact Hf|].
    apply contains_spec. now exists "", f.
Qed.

Definition three_files : world :=
  World [] []
    [("draft1.txt", RegularFile); ("notes.txt", RegularFile);
     ("old_draft", RegularFile)] [] [].

Lemma three_files_wellformed :
  NoDup ["draft1.txt"; "notes.txt"; "old_draft"] /\
  NoDup (os_listdir three_files) /\
  Forall (fun f => os_path_isfile three_files f = true)
         ["draft1.txt"; "notes.txt"; "old_draft"].
Proof.
  assert (H : NoDup ["draft1.txt"; "notes.txt"; "old_draft"]).
  { constructor; [intros [H | [H | []]]; discriminate|].
    constructor; [intros [H | []]; discriminate|].
    constructor; [intros [] | constructor]. }
  split; [exact H|]. split; [exact H|].
  repeat constructor.
Defined.

Lemma rm_files_startswith_removes_witness :
  exists w',
    rm_files_startswith "draft" ["draft1.txt"; "notes.txt"; "old_draft"]
      three_files = (Ret tt, w') /\
    (forall f, In f ["draft1.txt"; "notes.txt"; "old_draft"] ->
               (exists r, f = "draft" ++ r) -> lookup f (cwd w') = None) /\
    (forall g, ~ (In g ["draft1.txt"; "notes.txt"; "old_draft"] /\
                  exists r, g = "draft" ++ r) ->
               lookup g (cwd w') = lookup g (cwd three_files)) /\
    console w' = console three_files.
Proof.
  destruct three_files_wellformed as [H1 [H2 H3]].
  exact (rm_files_startswith_removes "draft"
           ["draft1.txt"; "notes.txt"; "old_draft"] three_files H1 H2 H3).
Defined.

Lemma rm_files_endswith_removes_witness :
  exists w',
    rm_files_endswith "draft" ["draft1.txt"; "notes.txt"; "old_draft"]
      three_files = (Ret tt, w') /\
    (forall f, In f ["draft1.txt"; "notes.txt"; "old_draft"] ->
               (exists stem, f = stem ++ "draft") ->
               lookup f (cwd w') = None) /\
    (forall g, ~ (In g ["draft1.txt"; "notes.txt"; "old_draft"] /\
                  exists stem, g = stem ++ "draft") ->
               lookup g (cwd w') = lookup g (cwd three_files)) /\
    console w' = console three_files.
Proof.
  destruct three_files_wellformed as [H1 [H2 H3]].
  exact (rm_files_endswith_removes "draft"
           ["draft1.txt"; "notes.txt"; "old_draft"] three_files H1 H2 H3).
Defined.

Lemma rm_files_contains_removes_exactly_witness :
  exists w',
    rm_files_contains "draft" ["draft1.txt"; "notes.txt"; "old_draft"]
      three_files = (Ret tt, w') /\
    (forall f, In f ["draft1.txt"; "notes.txt"; "old_draft"] ->
               (exists a b, f = a ++ "draft" ++ b) ->
               lookup f (cwd w') = None) /\
    (forall g, ~ (In g ["draft1.txt"; "notes.txt"; "old_draft"] /\
                  exists a b, g = a ++ "draft" ++ b) ->
               lookup g (cwd w') = lookup g (cwd three_files)) /\
    console w' = console three_files /\
    ("draft" = "" ->
     forall f, In f ["draft1.txt"; "notes.txt"; "old_draft"] ->
               lookup f (cwd w') = None).
Proof.
  destruct three_files_wellformed as [H1 [H2 H3]].
  exact (rm_files_contains_removes_exactly "draft"
           ["draft1.txt"; "notes.txt"; "old_draft"] three_files H1 H2 H3).
Defined.

(** ** The menu engine without non-selectable buttons *)

(** X13. Called without non-selectable buttons, once the render hook has
    returned and the widget gives a position that holds a button, [select]
    shows the menu with all names, prints the echo line when asked, and then
    runs the action of that button, once; it does nothing after it, and an
    exception the action raises is raised by [select]. *)
Theorem select_presses_chosen (buttons : list Button) (on_render : M unit)
  (print_selected_option : bool) (w w1 : world) (u : unit) (i : nat)
  (rest : list nat) (b : Button) :
  on_render w = (Ret u, w1) ->
  choices w1 = i :: rest ->
  nth_error buttons i = Some b ->
  select buttons None on_render print_selected_option w
  = action b
      (World (stdin w1) rest (cwd w1) (cells w1)
         (console w1
          ++ Menu (map get_name buttons) []
             :: (if print_selected_option
                 then [Printed ("Ваш выбор:  " ++ get_name b)]
                 else []))%list).
Proof.
  intros Hrender Hch Hb. unfold select.
  rewrite (bind_run on_render _ w w1 u Hrender).
  erewrite bind_run.
  2:{ unfold cutie_select. rewrite Hch. reflexivity. }
  unfold press_selected.
  rewrite nth_error_map, Hb. cbn [option_map]. unfold press.
  destruct print_selected_option.
  - rewrite (bind_run (print _) _ _ _ tt eq_refl).
    cbn [stdin choices cwd cells console]. now rewrite <- app_assoc.
  - rewrite (bind_run (ret tt) _ _ _ tt eq_refl). reflexivity.
Qed.

Lemma select_presses_chosen_witness :
  select [MkButton "A" (print "a"); MkButton "B" (raise (IndexError "b"))]
    None os_system_clear true (World [] [1; 0] [] [] [])
  = (Raise (IndexError "b"),
     World [] [0] [] []
       [Cleared; Menu ["A"; "B"] []; Printed "Ваш выбор:  B"]).
Proof.
  apply (select_presses_chosen
           [MkButton "A" (print "a"); MkButton "B" (raise (IndexError "b"))]
           os_system_clear true (World [] [1; 0] [] [] [])
           (World [] [1; 0] [] [] [Cleared]) tt 1 [0]
           (MkButton "B" (raise (IndexError "b")))); reflexivity.
Defined.

(** ** The last button of the conversion menus *)

(** What the comprehension variable holds after the rounds. *)
Definition last_written (files : list string) : option string :=
  match files with
  | [] => None
  | _ => Some (last files "")
  end.

Lemma rounds_from_unset (files : list string) (cs : list (option string)) :
  rounds (List.length cs) files (cs ++ [None])
  = (cs ++ [last_written files])%list.
Proof.
  destruct files as [|f files]; [reflexivity|].
  now rewrite rounds_at_end by discriminate.
Qed.

Lemma comprehension_menu_runs_exit (body : string -> M unit) (exit : Button)
  (files : list string) (rest : list nat) (w : world) :
  choices w = List.length files :: rest ->
  (file <- new_cell ;;
   file_buttons <- buttons_over_cell file body files ;;
   select (file_buttons ++ [exit])%list None (ret tt) false)%io w
  = action exit
      (World (stdin w) rest (cwd w) (cells w ++ [last_written files])%list
             (console w ++ [Menu (files ++ [get_name exit]) []])%list).
Proof.
  intros Hch.
  rewrite (bind_run new_cell _ w _ (List.length (cells w)) eq_refl).
  erewrite bind_run.
  2:{ apply buttons_over_cell_run. cbn [cells]. rewrite length_app. simpl. lia. }
  cbn [stdin choices cwd cells console].
  rewrite rounds_from_unset.
  unfold select. rewrite (bind_run (ret tt) _ _ _ tt eq_refl).
  erewrite bind_run.
  2:{ unfold cutie_select. cbn [choices]. rewrite Hch. reflexivity. }
  unfold press_selected. rewrite (bind_run (ret tt) _ _ _ tt eq_refl).
  rewrite nth_error_app2 by (rewrite length_map; lia).
  rewrite length_map, Nat.sub_diag. cbn [nth_error]. unfold press.
  cbn [stdin choices cwd cells console].
  rewrite map_app, map_map. cbn [get_name map]. rewrite map_id.
  reflexivity.
Qed.

(** X14. In the menus of [pdf_to_docx] and [docx_to_pdf] the entry after
    the listed files hands over to [main_menu]: nothing is converted, and
    [main_menu] starts in the world with the screen cleared, the heading,
    the empty line and the menu shown.  This holds with no file listed as
    well; the comprehension variable is then left unset. *)
Theorem conversion_menus_exit (main_menu : M unit) (w : world) (i : nat)
  (rest : list nat) :
  choices w = i :: rest ->
  (i = List.length (listed "pdf" w) ->
   pdf_to_docx main_menu w
   = main_menu
       (World (stdin w) rest (cwd w)
          (cells w ++ [last_written (listed "pdf" w)])%list
          (console w
           ++ [Cleared;
               Printed "Список файлов с расширением pdf в данном каталоге";
               Printed "";
               Menu (listed "pdf" w ++ ["Выход"]) []])%list)) /\
  (i = List.length (listed "docx" w) ->
   docx_to_pdf main_menu w
   = main_menu
       (World (stdin w) rest (cwd w)
          (cells w ++ [last_written (listed "docx" w)])%list
          (console w
           ++ [Cleared;
               Printed "Список файлов с расширением docx в данном каталоге";
               Printed "";
               Menu (listed "docx" w ++ ["Выход"]) []])%list)).
Proof.
  intros Hch. split; intros ->.
  - unfold pdf_to_docx.
    rewrite (bind_run os_system_clear _ w _ tt eq_refl).
    erewrite (bind_run (file_list ["pdf"])).
    2:{ unfold file_list, files_in_cwd_with_exts, print, emit, bind.
        cbn [flat_map]. rewrite app_nil_r. reflexivity. }
    rewrite (comprehension_menu_runs_exit to_docx _ (listed "pdf" w) rest);
      [| exact Hch].
    cbn [stdin choices cwd cells console get_name action].
    repeat rewrite <- app_assoc. reflexivity.
  - unfold docx_to_pdf.
    rewrite (bind_run os_system_clear _ w _ tt eq_refl).
    erewrite (bind_run (file_list ["docx"])).
    2:{ unfold file_list, files_in_cwd_with_exts, print, emit, bind.
        cbn [flat_map]. rewrite app_nil_r. reflexivity. }
    rewrite (comprehension_menu_runs_exit to_pdf _ (listed "docx" w) rest);
      [| exact Hch].
    cbn [stdin choices cwd cells console get_name action].
    repeat rewrite <- app_assoc. reflexivity.
Qed.

Lemma conversion_menus_exit_witness :
  pdf_to_docx (print "top") (World [] [0] [("a.txt", RegularFile)] [] [])
  = (Ret tt,
     World [] [] [("a.txt", RegularFile)] [None]
       [Cleared;
        Printed "Список файлов с расширением pdf в данном каталоге";
        Printed ""; Menu ["Выход"] []; Printed "top"]).
Proof.
  destruct (conversion_menus_exit (print "top")
              (World [] [0] [("a.txt", RegularFile)] [] []) 0 [] eq_refl)
    as [Hpdf _].
  exact (Hpdf eq_refl).
Defined.

(** ** The remove-group menu, end to end *)

Lemma not_empty_rejects (l : string) :
  not_empty l <> Ret tt ->
  Forall (validates l) [not_empty] /\ failure_messages [not_empty] l <> [].
Proof.
  intros H.
  assert (Hn : not_empty l
               = Raise (ValidationError "Значение не должно быть пустым.")).
  { unfold not_empty in *.
    destruct ((String.length l =? 0)%nat || Py.isspace l);
      [reflexivity | now contradiction H]. }
  split.
  - constructor; [right; eexists; exact Hn | constructor].
  - unfold failure_messages. cbn [flat_map]. rewrite Hn. discriminate.
Qed.

Lemma not_empty_accepts (l : string) :
  not_empty l = Ret tt ->
  Forall (validates l) [not_empty] /\ failure_messages [not_empty] l = [].
Proof.
  intros H. unfold failure_messages, validates. cbn [flat_map]. rewrite H.
  split; [|reflexivity]. constructor; [now left | constructor].
Qed.

Lemma regular_files_nodup (w : world) :
  NoDup (os_listdir w) ->
  NoDup (filter (os_path_isfile w) (os_listdir w)) /\
  Forall (fun f => os_path_isfile w f = true)
         (filter (os_path_isfile w) (os_listdir w)).
Proof.
  intros H. split; [now apply NoDup_filter|].
  apply Forall_forall. intros f Hf. now apply filter_In in Hf.
Qed.

(** X15. The third entry of the remove-group menu, end to end, in a
    directory without repeated names: after the lines that [not_empty]
    rejects, each answered with its message, the first accepted line [s] is
    taken; every regular file whose name contains [s] is removed, every
    other entry stays, the typed lines and the choice are used up, and the
    console shows the listing heading, the menu and the prompt rounds, with
    no line about a removed file. *)
Theorem rm_files_group_by_substring (main_menu : M unit) (w : world)
  (rejected : list string) (s : string) (later : list string)
  (rest : list nat) :
  NoDup (os_listdir w) ->
  choices w = 2 :: rest ->
  stdin w = (rejected ++ s :: later)%list ->
  Forall (fun l => not_empty l <> Ret tt) rejected ->
  not_empty s = Ret tt ->
  exists w',
    rm_files_group main_menu w = (Ret tt, w') /\
    (forall f, os_path_isfile w f = true -> (exists a b, f = a ++ s ++ b) ->
               lookup f (cwd w') = None) /\
    (forall g, ~ (os_path_isfile w g = true /\ exists a b, g = a ++ s ++ b) ->
               lookup g (cwd w') = lookup g (cwd w)) /\
    stdin w' = later /\ choices w' = rest /\
    console w'
    = (console w
       ++ [Printed "Список файлов в данном каталоге"; Printed ""; Cleared;
           Menu
             ["Удалить все файлы начинающиеся на определенную подстроку";
              "Удалить все файлы заканчивающиеся на определенную подстроку";
              "Удалить все файлы содержащие определенную подстроку";
              "Удалить все файлы по расширению"; "Выход"] []]
       ++ flat_map (rejected_round substr_input_title [not_empty]) rejected
       ++ [Prompted (substr_input_title ++ ": ")])%list.
Proof.
  intros Hdir Hch Hin Hrej Hacc.
  destruct (regular_files_nodup w Hdir) as [Hnd Hall].
  set (files := filter (os_path_isfile w) (os_listdir w)) in *.
  set (shown :=
         (console w
          ++ [Printed "Список файлов в данном каталоге"; Printed ""; Cleared;
              Menu
                ["Удалить все файлы начинающиеся на определенную подстроку";
                 "Удалить все файлы заканчивающиеся на определенную подстроку";
                 "Удалить все файлы содержащие определенную подстроку";
                 "Удалить все файлы по расширению"; "Выход"] []])%list).
  set (w2 := World later rest (cwd w) (cells w)
               (shown
                ++ flat_map (rejected_round substr_input_title [not_empty])
                            rejected
                ++ [Prompted (substr_input_title ++ ": ")])%list).
  destruct (rm_files_filtered (fun f => Py.contains s f) files w2 Hnd Hdir Hall)
    as [w' [Hrun [Hgone [Hkept [Hquiet Hsame]]]]].
  exists w'. split.
  - unfold rm_files_group.
    erewrite (bind_run (file_list [])).
    2:{ unfold file_list, print, emit, bind. cbn [cwd]. reflexivity. }
    unfold select. rewrite (bind_run os_system_clear _ _ _ tt eq_refl).
    erewrite bind_run.
    2:{ unfold cutie_select. cbn [choices]. rewrite Hch. reflexivity. }
    unfold press_selected. rewrite (bind_run (ret tt) _ _ _ tt eq_refl).
    cbn [nth_error press action].
    erewrite (bind_run (validated_input _ _ _)).
    2:{ unfold validated_input. cbn [stdin]. rewrite Hin.
        rewrite validated_input_loop_accepts.
        - unfold ret. reflexivity.
        - apply Forall_app. split.
          + apply Forall_forall. intros l Hl.
            rewrite Forall_forall in Hrej.
            now apply not_empty_rejects, Hrej.
          + constructor; [now apply not_empty_accepts | constructor].
        - apply Forall_forall. intros l Hl.
          rewrite Forall_forall in Hrej. now apply not_empty_rejects, Hrej.
        - now apply not_empty_accepts. }
    cbn [stdin choices cwd cells console map get_name].
    unfold rm_files_contains.
    replace (World later rest (cwd w) (cells w) _) with w2; [exact Hrun|].
    unfold w2, shown. f_equal. repeat rewrite <- app_assoc. reflexivity.
  - split; [|split; [|split; [|split]]].
    + intros f Hf Hs. apply Hgone; [|now apply contains_spec].
      apply filter_In. split; [|exact Hf].
      unfold os_path_isfile in Hf. unfold os_listdir.
      destruct (lookup f (cwd w)) eqn:El; [|discriminate].
      assert (Hn : lookup f (cwd w) <> None) by congruence.
      rewrite lookup_none_iff in Hn.
      destruct (in_dec string_dec f (map fst (cwd w))); tauto.
    + intros g Hg. rewrite Hkept; [reflexivity|].
      intros [Hgin Hgc]. apply Hg. apply filter_In in Hgin.
      split; [tauto | now apply contains_spec].
    + apply Hsame.
    + apply Hsame.
    + rewrite Hquiet. unfold w2, shown. cbn [console].
      repeat rewrite <- app_assoc. reflexivity.
Qed.

Lemma rm_files_group_by_substring_witness :
  exists w',
    rm_files_group (ret tt)
      (World [""; " "; "draft"; "more"] [2; 4]
             [("draft1.txt", RegularFile); ("notes.txt", RegularFile);
              ("old_draft", RegularFile); ("drafts", Directory)] [] [])
    = (Ret tt, w') /\
    cwd w' = [("notes.txt", RegularFile); ("drafts", Directory)] /\
    stdin w' = ["more"] /\ choices w' = [4] /\
    console w'
    = [Printed "Список файлов в данном каталоге"; Printed ""; Cleared;
       Menu
         ["Удалить все файлы начинающиеся на определенную подстроку";
          "Удалить все файлы заканчивающиеся на определенную подстроку";
          "Удалить все файлы содержащие определенную подстроку";
          "Удалить все файлы по расширению"; "Выход"] [];
       Prompted "Введите подстроку: ";
       Printed "Значение не должно быть пустым.";
       Prompted "Введите подстроку: ";
       Printed "Значение не должно быть пустым.";
       Prompted "Введите подстроку: "].
Proof.
  set (w := World [""; " "; "draft"; "more"] [2; 4]
              [("draft1.txt", RegularFile); ("notes.txt", RegularFile);
               ("old_draft", RegularFile); ("drafts", Directory)] [] []).
  assert (Hdir : NoDup (os_listdir w)).
  { constructor; [intros [H | [H | [H | []]]]; discriminate|].
    constructor; [intros [H | [H | []]]; discriminate|].
    constructor; [intros [H | []]; discriminate|].
    constructor; [intros [] | constructor]. }
  assert (Hrej : Forall (fun l => not_empty l <> Ret tt) [""; " "]).
  { constructor; [discriminate|]. constructor; [discriminate | constructor]. }
  destruct (rm_files_group_by_substring (ret tt) w [""; " "] "draft" ["more"]
              [4] Hdir eq_refl eq_refl Hrej eq_refl)
    as [w' [Hrun [_ [_ [Hin [Hch Hcon]]]]]].
  exists w'. split; [exact Hrun|].
  split; [|split; [exact Hin | split; [exact Hch | exact Hcon]]].
  assert (Hw : w' = snd (rm_files_group (ret tt) w)) by now rewrite Hrun.
  rewrite Hw. reflexivity.
Defined.

(** ** Compressing images *)

Lemma all_chars_app (p : ascii -> bool) (a b : string) :
  Py.all_chars p (a ++ b) = Py.all_chars p a && Py.all_chars p b.
Proof.
  induction a as [|c a IH]; simpl; [reflexivity|].
  now rewrite IH, andb_assoc.
Qed.

Lemma drop_underscores_none (s : string) :
  forall prev,
  (prev =? "_")%char = false ->
  Py.all_chars (fun c => negb (c =? "_")%char) s = true ->
  Py.drop_underscores prev s = Some s.
Proof.
  induction s as [|c s IH]; intros prev Hprev Hall; cbn [Py.drop_underscores].
  - now rewrite Hprev.
  - cbn [Py.all_chars] in Hall. apply andb_true_iff in Hall.
    destruct Hall as [Hc Hs]. apply negb_true_iff in Hc.
    rewrite Hc, Hprev. cbn [andb]. now rewrite (IH c Hc Hs).
Qed.

Lemma rstrip_no_space (s : string) :
  Py.all_chars (fun c => negb (Py.is_c_space c)) s = true -> Py.rstrip s = s.
Proof.
  induction s as [|c s IH]; intros Hall; cbn [Py.rstrip]; [reflexivity|].
  cbn [Py.all_chars] in Hall. apply andb_true_iff in Hall.
  destruct Hall as [Hc Hs]. apply negb_true_iff in Hc. rewrite (IH Hs).
  destruct s; [now rewrite Hc | reflexivity].
Qed.

Lemma all_chars_weaken (p q : ascii -> bool) (s : string) :
  (forall c, p c = true -> q c = true) ->
  Py.all_chars p s = true -> Py.all_chars q s = true.
Proof.
  intros Hpq. induction s as [|c s IH]; simpl; [reflexivity|].
  intros H. apply andb_true_iff in H. destruct H as [Hc Hs].
  now rewrite (Hpq c Hc), (IH Hs).
Qed.

Lemma span_digits_then (d : string) (c : ascii) (r : string) :
  Py.all_chars Py.is_digit d = true ->
  Py.is_digit c = false ->
  snd (Py.span_digits (d ++ String c r)) = String c r /\
  (d <> "" -> fst (Py.span_digits (d ++ String c r)) = true).
Proof.
  intros Hd Hc. induction d as [|x d IH].
  - simpl. rewrite Hc. split; [reflexivity | now intros H].
  - cbn [Py.all_chars] in Hd. apply andb_true_iff in Hd.
    destruct Hd as [Hx Hd]. cbn [append Py.span_digits]. rewrite Hx.
    cbn [fst snd]. split; [now apply IH | reflexivity].
Qed.

(** A decimal fraction: digits, a point, digits. *)
Definition fraction (whole part : string) : string := whole ++ "." ++ part.

Lemma float_of_fraction (whole part : string) :
  whole <> "" ->
  Py.all_chars Py.is_digit whole = true ->
  Py.all_chars Py.is_digit part = true ->
  Py.float (fraction whole part) = Ret tt.
Proof.
  intros Hne Hw Hp. unfold fraction.
  assert (Hall : forall q : ascii -> bool,
             (forall c, Py.is_digit c = true -> q c = true) ->
             q "."%char = true ->
             Py.all_chars q (whole ++ "." ++ part) = true).
  { intros q Hq Hdot. rewrite all_chars_app. cbn [append Py.all_chars].
    rewrite Hdot, (all_chars_weaken _ q _ Hq Hw),
      (all_chars_weaken _ q _ Hq Hp). reflexivity. }
  unfold Py.float.
  rewrite (Hall Py.is_ascii_char)
    by (try reflexivity; intros c Hc; now apply digit_is_plain in Hc).
  rewrite drop_underscores_none;
    [| reflexivity
     | apply Hall; [intros c Hc; apply digit_is_plain in Hc;
                    apply negb_true_iff; tauto | reflexivity]].
  destruct whole as [|x whole]; [contradiction|].
  pose proof Hw as Hw'. cbn [Py.all_chars] in Hw'.
  apply andb_true_iff in Hw'. destruct Hw' as [Hx Hrest].
  destruct (digit_is_plain x Hx) as [_ [_ [Hsp [Hplus [Hminus _]]]]].
  replace (Py.lstrip (String x whole ++ "." ++ part))
    with (String x whole ++ "." ++ part)
    by (cbn [append Py.lstrip]; now rewrite Hsp).
  rewrite rstrip_no_space
    by (apply Hall; [intros c Hc; apply digit_is_plain in Hc;
                     apply negb_true_iff; tauto | reflexivity]).
  unfold Py.strtod, Py.skip_sign. cbn [append]. rewrite Hplus, Hminus.
  cbn [orb].
  change (String x (whole ++ String "." part))
    with (String x whole ++ String "." part).
  destruct (span_digits_then (String x whole) "." part Hw eq_refl)
    as [Hsnd Hfst].
  destruct (Py.span_digits (String x whole ++ String "." part))
    as [d1 s2] eqn:E.
  cbn [fst snd] in *. subst s2. rewrite (Hfst ltac:(discriminate)).
  cbn [Ascii.eqb Bool.eqb]. 
  destruct (Py.span_digits part) as [d2 s3] eqn:E2.
  pose proof (span_digits_all part Hp) as H3. rewrite E2 in H3.
  cbn [snd] in H3. subst s3. reflexivity.
Qed.

Lemma scan_int_digits (d : string) (c : ascii) (r : string) :
  Py.all_chars Py.is_digit d = true ->
  Py.is_digit c = false ->
  (c =? "_")%char = false ->
  forall prev acc count,
  (prev =? "_")%char = false ->
  exists n,
    Py.scan_int prev acc count (d ++ String c r)
    = Some (n, count + String.length d, String c r).
Proof.
  intros Hd Hc Hu. induction d as [|x d IH]; intros prev acc count Hprev.
  - cbn [append Py.scan_int String.length]. rewrite Hc, Hu, Hprev.
    exists acc. now rewrite Nat.add_0_r.
  - cbn [Py.all_chars] in Hd. apply andb_true_iff in Hd.
    destruct Hd as [Hx Hd]. cbn [append Py.scan_int String.length]. rewrite Hx.
    destruct (digit_is_plain x Hx) as [_ [Hxu _]].
    destruct (IH Hd x (acc * 10 + Py.digit_value x)%Z (S count) Hxu)
      as [n Hn].
    exists n. rewrite Hn. now rewrite Nat.add_succ_r.
Qed.

Lemma int_rejects_fraction (whole part : string) :
  whole <> "" ->
  Py.all_chars Py.is_digit whole = true ->
  Py.all_chars Py.is_digit part = true ->
  exists why, Py.int (fraction whole part) = Raise (ValueError why).
Proof.
  intros Hne Hw Hp. unfold fraction, Py.int.
  assert (Hascii : Py.all_chars Py.is_ascii_char (whole ++ "." ++ part)
                   = true).
  { rewrite all_chars_app. cbn [append Py.all_chars].
    rewrite (all_chars_weaken Py.is_digit Py.is_ascii_char whole),
      (all_chars_weaken Py.is_digit Py.is_ascii_char part); try assumption;
      try reflexivity; intros c Hc; now apply digit_is_plain in Hc. }
  rewrite Hascii.
  destruct whole as [|x whole]; [contradiction|].
  pose proof Hw as Hw'. cbn [Py.all_chars] in Hw'.
  apply andb_true_iff in Hw'. destruct Hw' as [Hx Hrest].
  destruct (digit_is_plain x Hx) as [_ [Hxu [Hsp [Hplus [Hminus _]]]]].
  replace (Py.lstrip (String x whole ++ "." ++ part))
    with (String x whole ++ "." ++ part)
    by (cbn [append Py.lstrip]; now rewrite Hsp).
  unfold Py.skip_sign. cbn [append]. rewrite Hplus, Hminus. cbn [orb].
  rewrite Hxu.
  change (String x (whole ++ String "." part))
    with (String x whole ++ String "." part).
  destruct (scan_int_digits (String x whole) "." part Hw eq_refl eq_refl
              zero 0%Z 0 eq_refl) as [n ->].
  cbn [Nat.add String.length Nat.eqb].
  destruct (Py.max_str_digits <? _)%nat; [eauto|].
  cbn [Py.lstrip]. change (Py.is_c_space ".") with false. cbn. eauto.
Qed.

Lemma fraction_is_accepted (whole part : string) :
  whole <> "" ->
  Py.all_chars Py.is_digit whole = true ->
  Py.all_chars Py.is_digit part = true ->
  Forall (fun v => v (fraction whole part) = Ret tt)
         compression_input_validators.
Proof.
  intros Hne Hw Hp.
  assert (Hnum : only_digit_validator (fraction whole part) = Ret tt).
  { unfold only_digit_validator.
    now rewrite (float_of_fraction whole part Hne Hw Hp). }
  constructor; [exact Hnum|].
  constructor; [now apply accepted_number_is_not_blank | constructor].
Qed.

Lemma accepted_at_once (input_name : string) (validators : list validator)
  (value : string) (rest : list string) (w : world) :
  stdin w = value :: rest ->
  Forall (fun v => v value = Ret tt) validators ->
  validated_input input_name validators (ret tt) w
  = (Ret value,
     World rest (choices w) (cwd w) (cells w)
       (console w ++ [Prompted (input_name ++ ": ")])%list).
Proof.
  intros Hin Hall. unfold validated_input. rewrite Hin.
  rewrite (validated_input_loop_accepts input_name validators (ret tt) value
             rest []).
  - reflexivity.
  - constructor; [|constructor].
    apply Forall_forall. intros v Hv. left.
    rewrite Forall_forall in Hall. now apply Hall.
  - constructor.
  - unfold failure_messages. induction Hall as [|v vs Hv _ IH];
      [reflexivity|]. cbn [flat_map]. now rewrite Hv, IH.
Qed.

(** X16. A file button of [compress_images] with a decimal fraction
    typed, such as 7.5: the image is opened, the prompt is shown once, both
    validators accept the line, and then [int] raises [ValueError]; nothing
    is saved, whatever the saving would do. *)
Theorem compress_file_rejects_fraction (image : Type)
  (Image_open : string -> M image)
  (Image_save : image -> string -> Z -> M unit)
  (f whole part : string) (rest : list string) (w w1 : world)
  (opened : image) :
  Image_open f w = (Ret opened, w1) ->
  stdin w1 = fraction whole part :: rest ->
  whole <> "" ->
  Py.all_chars Py.is_digit whole = true ->
  Py.all_chars Py.is_digit part = true ->
  Forall (fun v => v (fraction whole part) = Ret tt)
         compression_input_validators /\
  exists why,
    compress_file image Image_open Image_save f w
    = (Raise (ValueError why),
       World rest (choices w1) (cwd w1) (cells w1)
         (console w1 ++ [Prompted (compression_input_name ++ ": ")])%list).
Proof.
  intros Hopen Hin Hne Hw Hp.
  pose proof (fraction_is_accepted whole part Hne Hw Hp) as Hacc.
  split; [exact Hacc|].
  destruct (int_rejects_fraction whole part Hne Hw Hp) as [why Hint].
  exists why. unfold compress_file.
  rewrite (bind_run (Image_open f) _ w w1 opened Hopen).
  rewrite (bind_run _ _ _ _ _
             (accepted_at_once compression_input_name
                compression_input_validators _ rest w1 Hin Hacc)).
  unfold bind, lift. now rewrite Hint.
Qed.

Lemma compress_file_rejects_fraction_witness :
  Forall (fun v => v (fraction "7" "5") = Ret tt)
         compression_input_validators /\
  exists why,
    compress_file unit (fun f => print ("open " ++ f))
      (fun _ name _ => print ("save " ++ name)) "a.png"
      (World ["7.5"; "80"] [] [("a.png", RegularFile)] [] [])
    = (Raise (ValueError why),
       World ["80"] [] [("a.png", RegularFile)] []
         [Printed "open a.png";
          Prompted "Введите параметры сжатия (от 0 до 100%): "]).
Proof.
  apply (compress_file_rejects_fraction unit (fun f => print ("open " ++ f))
           (fun _ name _ => print ("save " ++ name)) "a.png" "7" "5" ["80"]
           (World ["7.5"; "80"] [] [("a.png", RegularFile)] [] [])
           (World ["7.5"; "80"] [] [("a.png", RegularFile)] []
                  [Printed "open a.png"]) tt);
    try reflexivity.
  discriminate.
Defined.

(** The files [compress_images] lists. *)
Definition images (w : world) : list string :=
  (listed "jpeg" w ++ listed "jpg" w ++ listed "png" w ++ listed "gif" w)%list.

Definition compress_menu_shown (w : world) (rest : list nat) : world :=
  World (stdin w) rest (cwd w) (cells w)
    (console w
     ++ [Cleared;
         Printed
           "Список файлов с расширением jpeg; jpg; png; gif в данном каталоге";
         Printed "";
         Menu (images w ++ ["Сжать все файлы в каталоге"; "Выход"]) []])%list.

(** X17. In the menu of [compress_images] a file button compresses the
    file it names: its action took the file by value when the button was
    made.  The entry after the files applies one compression value to all
    listed files, and the last entry hands over to [main_menu]. *)
Theorem compress_images_buttons (main_menu : M unit) (image : Type)
  (Image_open : string -> M image)
  (Image_save : image -> string -> Z -> M unit)
  (w : world) (i : nat) (rest : list nat) :
  choices w = i :: rest ->
  (i < List.length (images w) ->
   compress_images main_menu image Image_open Image_save w
   = compress_file image Image_open Image_save (nth i (images w) "")
       (compress_menu_shown w rest)) /\
  (i = List.length (images w) ->
   compress_images main_menu image Image_open Image_save w
   = get_compression_value_and_apply_to image Image_open Image_save
       (images w) (compress_menu_shown w rest)) /\
  (i = S (List.length (images w)) ->
   compress_images main_menu image Image_open Image_save w
   = main_menu (compress_menu_shown w rest)).
Proof.
  intros Hch.
  assert (Hmenu :
    compress_images main_menu image Image_open Image_save w
    = press_selected
        (map (fun file =>
                MkButton file
                  (compress_file image Image_open Image_save file))
             (images w)
         ++ [MkButton "Сжать все файлы в каталоге"
               (get_compression_value_and_apply_to image Image_open
                  Image_save (images w));
             MkButton "Выход" main_menu])%list
        false i (compress_menu_shown w rest)).
  { unfold compress_images.
    rewrite (bind_run os_system_clear _ w _ tt eq_refl).
    erewrite (bind_run (file_list _) _ _ _ (images w)).
    2:{ unfold file_list, files_in_cwd_with_exts, print, emit, bind.
        unfold images, listed. cbn [flat_map]. rewrite app_nil_r.
        reflexivity. }
    unfold select. rewrite (bind_run (ret tt) _ _ _ tt eq_refl).
    erewrite bind_run.
    2:{ unfold cutie_select. cbn [choices]. rewrite Hch. reflexivity. }
    unfold compress_menu_shown.
    cbn [stdin choices cwd cells console].
    rewrite map_app, map_map. cbn [get_name map]. rewrite map_id.
    repeat rewrite <- app_assoc. reflexivity. }
  rewrite Hmenu. unfold press_selected.
  rewrite (bind_run (ret tt) _ _ _ tt eq_refl).
  split; [|split].
  - intros Hi.
    rewrite nth_error_app1 by (rewrite length_map; exact Hi).
    rewrite nth_error_map, (nth_error_nth' (images w) "" Hi). reflexivity.
  - intros ->.
    rewrite nth_error_app2 by (rewrite length_map; lia).
    rewrite length_map, Nat.sub_diag. reflexivity.
  - intros ->.
    rewrite nth_error_app2 by (rewrite length_map; lia).
    rewrite length_map.
    replace (S (List.length (images w)) - List.length (images w)) with 1
      by lia.
    reflexivity.
Qed.

Lemma compress_images_buttons_witness :
  compress_images (ret tt) unit (fun f => print ("open " ++ f))
    (fun _ name q => print ("save " ++ name ++ " " ++ Py.str_int q))
    (World ["80"] [0]
           [("b.png", RegularFile); ("a.jpg", RegularFile);
            ("c.txt", RegularFile)] [] [])
  = (Ret tt,
     World [] []
       [("b.png", RegularFile); ("a.jpg", RegularFile);
        ("c.txt", RegularFile)] []
       [Cleared;
        Printed
          "Список файлов с расширением jpeg; jpg; png; gif в данном каталоге";
        Printed "";
        Menu ["a.jpg"; "b.png"; "Сжать все файлы в каталоге"; "Выход"] [];
        Printed "open a.jpg";
        Prompted "Введите параметры сжатия (от 0 до 100%): ";
        Printed "save compressed_a.jpg 80"]).
Proof.
  destruct (compress_images_buttons (ret tt) unit
              (fun f => print ("open " ++ f))
              (fun _ name q => print ("save " ++ name ++ " " ++ Py.str_int q))
              (World ["80"] [0]
                     [("b.png", RegularFile); ("a.jpg", RegularFile);
                      ("c.txt", RegularFile)] [] [])
              0 [] eq_refl) as [Hfile _].
  rewrite Hfile; [reflexivity | simpl; lia].
Defined.

(** X18. [get_compression_value_and_apply_to] with a decimal fraction
    typed: the line is accepted; with no file to compress nothing more
    happens and the call returns, with a first file the image is opened and
    then [int] raises [ValueError], and nothing is saved. *)
Theorem apply_to_all_rejects_fraction (image : Type)
  (Image_open : string -> M image)
  (Image_save : image -> string -> Z -> M unit)
  (whole part : string) (rest : list string) (w : world) :
  stdin w = fraction whole part :: rest ->
  whole <> "" ->
  Py.all_chars Py.is_digit whole = true ->
  Py.all_chars Py.is_digit part = true ->
  let prompted :=
    World rest (choices w) (cwd w) (cells w)
      (console w ++ [Prompted (compression_input_name ++ ": ")])%list in
  get_compression_value_and_apply_to image Image_open Image_save [] w
  = (Ret tt, prompted) /\
  forall f files opened w1,
    Image_open f prompted = (Ret opened, w1) ->
    exists why,
      get_compression_value_and_apply_to image Image_open Image_save
        (f :: files) w
      = (Raise (ValueError why), w1).
Proof.
  intros Hin Hne Hw Hp prompted.
  pose proof (fraction_is_accepted whole part Hne Hw Hp) as Hacc.
  pose proof (accepted_at_once compression_input_name
                compression_input_validators _ rest w Hin Hacc) as Hrun.
  split.
  - unfold get_compression_value_and_apply_to.
    rewrite (bind_run _ _ _ _ _ Hrun). reflexivity.
  - intros f files opened w1 Hopen.
    destruct (int_rejects_fraction whole part Hne Hw Hp) as [why Hint].
    exists why. unfold get_compression_value_and_apply_to.
    rewrite (bind_run _ _ _ _ _ Hrun). cbn [for_each].
    fold prompted. unfold bind at 1.
    rewrite (bind_run (Image_open f) _ prompted w1 opened Hopen).
    unfold bind, lift. now rewrite Hint.
Qed.

Lemma apply_to_all_rejects_fraction_witness :
  let prompted :=
    World [] [] [] []
      [Prompted "Введите параметры сжатия (от 0 до 100%): "] in
  get_compression_value_and_apply_to unit (fun f => print ("open " ++ f))
    (fun _ name _ => print ("save " ++ name)) []
    (World ["12.50"] [] [] [] [])
  = (Ret tt, prompted) /\
  forall f files opened w1,
    print ("open " ++ f) prompted = (Ret opened, w1) ->
    exists why,
      get_compression_value_and_apply_to unit (fun f => print ("open " ++ f))
        (fun _ name _ => print ("save " ++ name)) (f :: files)
        (World ["12.50"] [] [] [] [])
      = (Raise (ValueError why), w1).
Proof.
  apply (apply_to_all_rejects_fraction unit (fun f => print ("open " ++ f))
           (fun _ name _ => print ("save " ++ name)) "12" "50" []
           (World ["12.50"] [] [] [] []));
    try reflexivity.
  discriminate.
Defined.

(** The number a run of decimal digits writes, after [acc]. *)
Fixpoint decimal_from (acc : Z) (d : string) : Z :=
  match d with
  | EmptyString => acc
  | String c r => decimal_from (acc * 10 + Py.digit_value c)%Z r
  end.

Lemma scan_int_all_digits (d : string) :
  Py.all_chars Py.is_digit d = true ->
  forall prev acc count,
  (prev =? "_")%char = false ->
  Py.scan_int prev acc count d
  = Some (decimal_from acc d, count + String.length d, "").
Proof.
  induction d as [|x d IH]; intros Hd prev acc count Hprev.
  - cbn [Py.scan_int decimal_from String.length]. rewrite Hprev.
    now rewrite Nat.add_0_r.
  - cbn [Py.all_chars] in Hd. apply andb_true_iff in Hd.
    destruct Hd as [Hx Hd].
    cbn [Py.scan_int decimal_from String.length]. rewrite Hx.
    destruct (digit_is_plain x Hx) as [_ [Hxu _]].
    rewrite (IH Hd x _ _ Hxu). now rewrite Nat.add_succ_r.
Qed.

Lemma int_of_digits (d : string) :
  d <> "" ->
  Py.all_chars Py.is_digit d = true ->
  String.length d <= Py.max_str_digits ->
  Py.int d = Ret (decimal_from 0 d).
Proof.
  intros Hne Hd Hlen. unfold Py.int.
  rewrite (all_chars_weaken Py.is_digit Py.is_ascii_char d)
    by (try assumption; intros c Hc; now apply digit_is_plain in Hc).
  destruct d as [|x d]; [contradiction|].
  pose proof Hd as Hd'. cbn [Py.all_chars] in Hd'.
  apply andb_true_iff in Hd'. destruct Hd' as [Hx Hrest].
  destruct (digit_is_plain x Hx) as [_ [Hxu [Hsp [Hplus [Hminus _]]]]].
  replace (Py.lstrip (String x d)) with (String x d)
    by (cbn [Py.lstrip]; now rewrite Hsp).
  unfold Py.skip_sign. rewrite Hplus, Hminus. cbn [orb]. rewrite Hxu.
  rewrite (scan_int_all_digits (String x d) Hd zero 0%Z 0 eq_refl).
  cbn [Nat.add].
  destruct (String.length (String x d) =? 0)%nat eqn:E0;
    [cbn [String.length] in E0; discriminate|].
  destruct (Py.max_str_digits <? String.length (String x d))%nat eqn:E1.
  - apply Nat.ltb_lt in E1. lia.
  - reflexivity.
Qed.

(** X19. A file button of [compress_images] with a run of at most 4300
    decimal digits typed: the image is opened, the prompt is shown once, and
    the image is saved under the name with [compressed_] put before it, with
    the number typed as the quality; the number is not checked against the
    range the prompt names. *)
Theorem compress_file_saves_typed_number (image : Type)
  (Image_open : string -> M image)
  (Image_save : image -> string -> Z -> M unit)
  (f d : string) (rest : list string) (w w1 : world) (opened : image) :
  Image_open f w = (Ret opened, w1) ->
  stdin w1 = d :: rest ->
  d <> "" ->
  Py.all_chars Py.is_digit d = true ->
  String.length d <= Py.max_str_digits ->
  compress_file image Image_open Image_save f w
  = Image_save opened ("compressed_" ++ f) (decimal_from 0 d)
      (World rest (choices w1) (cwd w1) (cells w1)
         (console w1 ++ [Prompted (compression_input_name ++ ": ")])%list).
Proof.
  intros Hopen Hin Hne Hd Hlen.
  assert (Hacc : Forall (fun v => v d = Ret tt) compression_input_validators).
  { assert (Hnum : only_digit_validator d = Ret tt).
    { unfold only_digit_validator. now rewrite (float_of_digits d Hne Hd). }
    constructor; [exact Hnum|].
    constructor; [now apply accepted_number_is_not_blank | constructor]. }
  unfold compress_file.
  rewrite (bind_run (Image_open f) _ w w1 opened Hopen).
  rewrite (bind_run _ _ _ _ _
             (accepted_at_once compression_input_name
                compression_input_validators _ rest w1 Hin Hacc)).
  unfold bind at 1, lift. now rewrite (int_of_digits d Hne Hd Hlen).
Qed.

Lemma compress_file_saves_typed_number_witness :
  compress_file unit (fun f => print ("open " ++ f))
    (fun _ name q => print ("save " ++ name ++ " " ++ Py.str_int q)) "a.png"
    (World ["500"] [] [("a.png", RegularFile)] [] [])
  = (Ret tt,
     World [] [] [("a.png", RegularFile)] []
       [Printed "open a.png";
        Prompted "Введите параметры сжатия (от 0 до 100%): ";
        Printed "save compressed_a.png 500"]).
Proof.
  rewrite (compress_file_saves_typed_number unit
             (fun f => print ("open " ++ f))
             (fun _ name q => print ("save " ++ name ++ " " ++ Py.str_int q))
             "a.png" "500" []
             (World ["500"] [] [("a.png", RegularFile)] [] [])
             (World ["500"] [] [("a.png", RegularFile)] []
                    [Printed "open a.png"]) tt);
    try reflexivity; try discriminate.
  unfold Py.max_str_digits. simpl. lia.
Defined.
